(** * minilm-builder: the five pipeline stages as state-passing programs

    The stages under [packages/minilm-builder/python] are straight-line
    scripts: an import guard, positional arguments read from [sys.argv], and
    one [try]/[except Exception] block that prints JSON records, calls the
    external libraries and touches the filesystem through [pathlib].

    The embedding below follows the scripts statement by statement in a
    state-and-exception monad.  The state holds the filesystem, the records
    still held in the standard-output buffer, and a trace of what happened
    (records printed, records delivered to the reader of the stream, library
    calls started).  The external libraries are an oracle of the environment:
    any function from the call and the filesystem to a value or an exception
    and a new filesystem.

    What the model leaves out: a library call returns or raises an exception
    derived from [Exception] (it does not end the process, hang, or write on
    standard output); an import fails with [ImportError] or not at all;
    writing to standard output does not fail; floating-point values are
    known by their printed form only.  The filesystem is a map from parsed
    paths, with no symbolic links, no working directory and no resolution of
    [..]: two spellings of one place ([/m] and [//m], [/m] and [/x/../m], a
    relative and an absolute path) are two keys.  What is said about the
    place a stage leaves alone is therefore said for paths that are absolute
    with a single leading slash and without [..], where the spelling tells
    the place. *)

From Stdlib Require Import ZArith Ascii String.
From stdpp Require Import gmap strings list fin_maps.

Open Scope string_scope.
Open Scope list_scope.

(** ** pathlib: pure POSIX paths *)

Module PurePath.

(** A parsed path: [root] is the empty string, one slash or two slashes;
    [parts] are the components after it, none of them empty or a dot. *)
Record Path := mk { root : string; parts : list string }.

#[global] Instance Path_eq_dec : EqDecision Path.
Proof. solve_decision. Defined.

#[global] Instance Path_countable : Countable Path.
Proof.
  apply (inj_countable' (fun p => (root p, parts p))
                        (fun rp => mk (fst rp) (snd rp))).
  by intros [].
Defined.

Definition slash : ascii := "/"%char.

(** [s.split('/')] *)
Fixpoint split_slash (s : string) : list string :=
  match s with
  | EmptyString => [EmptyString]
  | String c rest =>
      if decide (c = slash) then EmptyString :: split_slash rest
      else match split_slash rest with
           | [] => [String c EmptyString]
           | x :: xs => String c x :: xs
           end
  end.

(** Exactly two leading slashes are kept as the root; one, or three and
    more, collapse to a single slash. *)
Definition parse_root (s : string) : string :=
  match s with
  | String c1 (String c2 (String c3 _)) =>
      if decide (c1 = slash) then
        if decide (c2 = slash) then
          if decide (c3 = slash) then "/" else "//"
        else "/"
      else ""
  | String c1 (String c2 EmptyString) =>
      if decide (c1 = slash) then
        if decide (c2 = slash) then "//" else "/"
      else ""
  | String c1 EmptyString => if decide (c1 = slash) then "/" else ""
  | EmptyString => ""
  end.

Definition keep_part (x : string) : bool :=
  negb (bool_decide (x = "")) && negb (bool_decide (x = ".")).

(** [Path(s)] *)
Definition of_string (s : string) : Path :=
  mk (parse_root s) (List.filter keep_part (split_slash s)).

Fixpoint join_slash (l : list string) : string :=
  match l with
  | [] => ""
  | [x] => x
  | x :: xs => x +:+ "/" +:+ join_slash xs
  end.

(** [str(p)] *)
Definition to_string (p : Path) : string :=
  match parts p with
  | [] => if bool_decide (root p = "") then "." else root p
  | _ => root p +:+ join_slash (parts p)
  end.

(** [p / name], for a [name] that is a single component *)
Definition child (p : Path) (name : string) : Path :=
  mk (root p) (parts p ++ [name]).

(** [p.parent]: the root and the empty relative path are their own
    parent *)
Definition parent (p : Path) : Path :=
  mk (root p) (removelast (parts p)).

(** [q] lies strictly below [p] *)
Definition below (p q : Path) : Prop :=
  root q = root p ∧ ∃ x rest, parts q = parts p ++ x :: rest.

(** [q] is [p] or lies below it *)
Definition within (p q : Path) : Prop :=
  root q = root p ∧ ∃ rest, parts q = parts p ++ rest.

End PurePath.

Abbreviation Path := PurePath.Path.
Infix "</>" := PurePath.child (at level 40, left associativity).


(** ** The filesystem

    A finite map from parsed paths to nodes.  Paths are identified the way
    [pathlib] compares them, component by component: the model has no
    symbolic links, no current directory against which a relative path is
    resolved, and [..] is a component like any other.  The root and the empty
    relative path always denote an existing directory. *)

Inductive Node := File (content : string) | Dir.

#[global] Instance Node_eq_dec : EqDecision Node.
Proof. solve_decision. Defined.

Abbreviation FS := (gmap Path Node).

(** ** Exceptions *)

Inductive ExnClass :=
| ImportError
| IndexError
| ValueError
| FileNotFoundError
| FileExistsError
| NotADirectoryError
| IsADirectoryError
| LibraryError (name : string).

#[global] Instance ExnClass_eq_dec : EqDecision ExnClass.
Proof. solve_decision. Defined.

(** An exception object derived from [Exception]; [exn_text] is [str(e)]. *)
Record Exn := { exn_class : ExnClass; exn_text : string }.

Inductive Res (A : Type) := Ok (a : A) | Err (e : Exn).
Arguments Ok {A} a.
Arguments Err {A} e.

(** ** Values of the external libraries

    The scripts never look inside a model, a tokenizer, a session or a
    tensor: they pass them back to the library.  Such an object is a handle.
    A float is known to the scripts only through the text [json.dumps]
    writes for it. *)

Inductive PyObj := Handle (id : N).
Inductive PyFloat := FloatRepr (repr : string).

#[global] Instance PyObj_eq_dec : EqDecision PyObj.
Proof. solve_decision. Defined.
#[global] Instance PyFloat_eq_dec : EqDecision PyFloat.
Proof. solve_decision. Defined.

(** ** JSON records *)

Inductive JVal :=
| JStr (s : string)
| JInts (l : list Z)
| JFloat (x : PyFloat).

#[global] Instance JVal_eq_dec : EqDecision JVal.
Proof. solve_decision. Defined.

(** A JSON object with its keys in the order of the dict literal. *)
Abbreviation JsonRecord := (list (string * JVal)).

Fixpoint get_key (k : string) (r : JsonRecord) : option JVal :=
  match r with
  | [] => None
  | (k', v) :: r' => if bool_decide (k' = k) then Some v else get_key k r'
  end.

(** [{"status": tag}] *)
Definition status_record (tag : string) : JsonRecord := [("status", JStr tag)].

(** [{"error": msg}] *)
Definition error_record (msg : string) : JsonRecord := [("error", JStr msg)].

Definition is_error (r : JsonRecord) : bool :=
  bool_decide (is_Some (get_key "error" r)).

Definition is_complete (r : JsonRecord) : bool :=
  bool_decide (get_key "status" r = Some (JStr "complete")).

(** A terminal record: the success record or an error record. *)
Definition is_terminal (r : JsonRecord) : bool := is_complete r || is_error r.

(** ** Calls into the external libraries

    One constructor per call site of the five scripts, with the arguments the
    script passes.  In optimize.py the two attributes set on the fusion
    options travel with the [optimize_model] call that receives the options;
    in verify.py the dict rebuilt from [inputs.items()] is [inputs]. *)

Inductive LibCall :=
| AutoModel_from_pretrained (model_name : string)
| AutoTokenizer_from_pretrained (name : string)
| save_pretrained (obj : PyObj) (save_directory : Path)
| main_export (model_name_or_path : string) (output : Path)
              (task : string) (opset : Z) (device : string)
| FusionOptions (model_type : string)
| optimize_model (input model_type : string) (num_heads hidden_size : Z)
                 (optimization_options : PyObj)
                 (enable_gelu_approximation enable_skip_layer_norm : bool)
| save_model_to_file (optimized_model : PyObj) (output_path : string)
| quantize_dynamic (model_input model_output weight_type : string)
                   (per_channel reduce_range : bool)
                   (extra_options : list (string * string))
| InferenceSession (model_path : string)
| tokenizer_call (tokenizer : PyObj) (text return_tensors : string)
                 (padding truncation : bool)
| session_run (session inputs : PyObj).

(** ** What happens during a run *)

Inductive Event :=
| EvPrint (r : JsonRecord)     (* [print(json.dumps(r))] was executed *)
| EvDeliver (r : JsonRecord)   (* the line of [r] left the process *)
| EvCall (c : LibCall).        (* a library call started *)

(** ** The environment of a run *)

Record Env := {
  (** whether [import m] (or [from m import ...]) succeeds *)
  importable : string -> bool;
  (** [int(s)]; [None] stands for [ValueError] *)
  py_int : string -> option Z;
  (** the buffering of standard output: given the records pending after a
      [print], whether the stream writes them through now.  Constantly
      [true] for a line-buffered or unbuffered stream. *)
  spills : list JsonRecord -> bool;
  (** [str(e)] for an exception the runtime raises, from its class and the
      operand (a file name, a literal) it is about *)
  runtime_text : ExnClass -> string -> string;
  (** the libraries: a call either returns a value or raises, and may
      change the filesystem in both cases *)
  lib : LibCall -> FS -> Res PyObj * FS;
  (** [outputs[0]] *)
  item0 : PyObj -> Res PyObj;
  (** [list(t.shape)] *)
  shape_of : PyObj -> Res (list Z);
  (** [float(np.mean(t))] and [float(np.std(t))] *)
  float_mean : PyObj -> Res PyFloat;
  float_std : PyObj -> Res PyFloat;
}.

(** ** The state of a running script *)

Record World := {
  w_fs : FS;
  w_pending : list JsonRecord;
  w_trace : list Event;
}.

Inductive Outcome (A : Type) :=
| Value (a : A)
| Raised (e : Exn)
| Exited (code : Z).         (* [SystemExit], not an [Exception] *)
Arguments Value {A} a.
Arguments Raised {A} e.
Arguments Exited {A} code.

Definition Py (A : Type) : Type := World -> Outcome A * World.

Definition ret {A} (a : A) : Py A := fun w => (Value a, w).

Definition bind {A B} (m : Py A) (k : A -> Py B) : Py B :=
  fun w =>
    match m w with
    | (Value a, w') => k a w'
    | (Raised e, w') => (Raised e, w')
    | (Exited c, w') => (Exited c, w')
    end.

#[global] Instance Py_ret : MRet Py := @ret.
#[global] Instance Py_bind : MBind Py := fun A B k m => bind m k.

Definition raise {A} (e : Exn) : Py A := fun w => (Raised e, w).

(** [sys.exit(code)] *)
Definition sys_exit {A} (code : Z) : Py A := fun w => (Exited code, w).

(** [try: body / except <classes>: handler] *)
Definition try_except {A} (body : Py A) (catches : ExnClass -> bool)
    (handler : Exn -> Py A) : Py A :=
  fun w =>
    match body w with
    | (Raised e, w') =>
        if catches (exn_class e) then handler e w' else (Raised e, w')
    | other => other
    end.

Definition except_ImportError (c : ExnClass) : bool :=
  bool_decide (c = ImportError).

(** Every class of the model derives from [Exception]. *)
Definition except_Exception (c : ExnClass) : bool := true.

Definition lift_res {A} (r : Res A) : Py A :=
  fun w => match r with Ok a => (Value a, w) | Err e => (Raised e, w) end.

(** ** Statements of the scripts, relative to an environment *)

Section Statements.

Variable E : Env.

(** An exception raised by the runtime itself. *)
Definition builtin (c : ExnClass) (operand : string) : Exn :=
  {| exn_class := c; exn_text := runtime_text E c operand |}.

(** [import m] *)
Definition import_ (m : string) : Py unit :=
  fun w =>
    if importable E m then (Value tt, w)
    else (Raised (builtin ImportError m), w).

(** [sys.argv[i]] *)
Definition sys_argv (argv : list string) (i : nat) : Py string :=
  fun w =>
    match argv !! i with
    | Some s => (Value s, w)
    | None => (Raised (builtin IndexError "list index out of range"), w)
    end.

(** [int(s)] *)
Definition int (s : string) : Py Z :=
  fun w =>
    match py_int E s with
    | Some z => (Value z, w)
    | None => (Raised (builtin ValueError s), w)
    end.

(** [print(json.dumps(r))], with no [flush] argument: the line joins the
    stream's buffer and leaves the process when the stream spills. *)
Definition print (r : JsonRecord) : Py unit :=
  fun w =>
    let pending := w_pending w ++ [r] in
    if spills E pending then
      (Value tt, {| w_fs := w_fs w;
                    w_pending := [];
                    w_trace := w_trace w ++ EvPrint r :: map EvDeliver pending |})
    else
      (Value tt, {| w_fs := w_fs w;
                    w_pending := pending;
                    w_trace := w_trace w ++ [EvPrint r] |}).

(** A call into a library. *)
Definition call (c : LibCall) : Py PyObj :=
  fun w =>
    let w1 := {| w_fs := w_fs w;
                 w_pending := w_pending w;
                 w_trace := w_trace w ++ [EvCall c] |} in
    match lib E c (w_fs w) with
    | (Ok v, fs') =>
        (Value v, {| w_fs := fs'; w_pending := w_pending w1; w_trace := w_trace w1 |})
    | (Err e, fs') =>
        (Raised e, {| w_fs := fs'; w_pending := w_pending w1; w_trace := w_trace w1 |})
    end.

(** *** pathlib on the filesystem *)

Definition stat (fs : FS) (p : Path) : option Node :=
  match PurePath.parts p with
  | [] => Some Dir
  | _ => fs !! p
  end.

(** [p.exists()] *)
Definition exists_ (fs : FS) (p : Path) : bool :=
  bool_decide (is_Some (stat fs p)).

(** [p.is_dir()] *)
Definition is_dir (fs : FS) (p : Path) : bool :=
  bool_decide (stat fs p = Some Dir).

(** [os.mkdir(p)]: the class of the [OSError] if it raises, and the
    filesystem afterwards. *)
Definition os_mkdir (p : Path) (fs : FS) : option ExnClass * FS :=
  match PurePath.parts p with
  | [] => (Some FileExistsError, fs)
  | _ =>
      match stat fs (PurePath.parent p) with
      | None => (Some FileNotFoundError, fs)
      | Some (File _) => (Some NotADirectoryError, fs)
      | Some Dir =>
          match fs !! p with
          | Some _ => (Some FileExistsError, fs)
          | None => (None, <[p := Dir]> fs)
          end
      end
  end.

(** [p.mkdir(parents=False, exist_ok=True)] *)
Definition mkdir_exist_ok (p : Path) (fs : FS) : option ExnClass * FS :=
  match os_mkdir p fs with
  | (None, fs') => (None, fs')
  | (Some FileNotFoundError, fs') => (Some FileNotFoundError, fs')
  | (Some c, fs') => if is_dir fs' p then (None, fs') else (Some c, fs')
  end.

(** The [OSError] names the path of the system call that failed. *)
Definition at_path (p : Path) (r : option ExnClass * FS)
    : option (ExnClass * Path) * FS :=
  (match r.1 with Some c => Some (c, p) | None => None end, r.2).

(** [p.mkdir(parents=True, exist_ok=True)], as pathlib does it: try
    [os.mkdir]; on [FileNotFoundError] make the parent the same way and
    try again; on any other [OSError] accept an existing directory.  The
    path is [root] with the components [rev rparts]. *)
Fixpoint mkdir_parents (root : string) (rparts : list string) (fs : FS)
    : option (ExnClass * Path) * FS :=
  let self := PurePath.mk root (rev rparts) in
  match os_mkdir self fs with
  | (None, fs') => (None, fs')
  | (Some FileNotFoundError, fs') =>
      match rparts with
      | [] => (Some (FileNotFoundError, self), fs')
      | _ :: up =>
          match mkdir_parents root up fs' with
          | (Some e, fs1) => (Some e, fs1)
          | (None, fs1) => at_path self (mkdir_exist_ok self fs1)
          end
      end
  | (Some c, fs') =>
      if is_dir fs' self then (None, fs') else (Some (c, self), fs')
  end.

(** A filesystem operation as a statement: the filesystem is the one the
    operation left, also when it raises. *)
Definition lift_fs (r : option (ExnClass * Path) * FS) : Py unit :=
  fun w =>
    let w' := {| w_fs := r.2; w_pending := w_pending w; w_trace := w_trace w |} in
    match r.1 with
    | None => (Value tt, w')
    | Some (c, p) => (Raised (builtin c (PurePath.to_string p)), w')
    end.

Definition mkdir (p : Path) : Py unit :=
  fun w =>
    lift_fs (mkdir_parents (PurePath.root p) (rev (PurePath.parts p)) (w_fs w)) w.

(** [p.exists()] as a statement *)
Definition path_exists (p : Path) : Py bool :=
  fun w => (Value (exists_ (w_fs w) p), w).

(** [p.read_bytes()] *)
Definition read_bytes (p : Path) : Py string :=
  fun w =>
    match stat (w_fs w) p with
    | Some (File data) => (Value data, w)
    | Some Dir => (Raised (builtin IsADirectoryError (PurePath.to_string p)), w)
    | None => (Raised (builtin FileNotFoundError (PurePath.to_string p)), w)
    end.

(** [open(p, 'wb').write(data)]: the class of the [OSError] if it raises,
    and the filesystem afterwards. *)
Definition os_write (p : Path) (data : string) (fs : FS)
    : option ExnClass * FS :=
  match PurePath.parts p with
  | [] => (Some IsADirectoryError, fs)
  | _ =>
      match stat fs (PurePath.parent p) with
      | None => (Some FileNotFoundError, fs)
      | Some (File _) => (Some NotADirectoryError, fs)
      | Some Dir =>
          match fs !! p with
          | Some Dir => (Some IsADirectoryError, fs)
          | _ => (None, <[p := File data]> fs)
          end
      end
  end.

(** [p.write_bytes(data)] *)
Definition write_bytes (p : Path) (data : string) : Py unit :=
  fun w => lift_fs (at_path p (os_write p data (w_fs w))) w.

(** [for x in xs: body(x)] *)
Fixpoint for_each {A} (xs : list A) (body : A -> Py unit) : Py unit :=
  match xs with
  | [] => mret tt
  | x :: xs' => body x ;; for_each xs' body
  end.

End Statements.

(** ** The five scripts *)

Section Scripts.

Variable E : Env.

(** The guard at the head of every script:
    [try: <imports> / except ImportError: print error; sys.exit(1)]. *)
Definition import_guard (modules : list string) (msg : string) : Py unit :=
  try_except (for_each modules (import_ E))
    except_ImportError
    (fun _ => print E (error_record msg) ;; sys_exit 1).

(** The block around every script's work:
    [try: body / except Exception as e: print error; sys.exit(1)]. *)
Definition stage_boundary (body : Py unit) : Py unit :=
  try_except body
    except_Exception
    (fun e => print E (error_record (exn_text e)) ;; sys_exit 1).

(** The copy loop of optimize.py and quantize.py. *)
Definition copy_sidecars (files : list string) (src_dir dst_dir : Path)
    : Py unit :=
  for_each files (fun file =>
    let src := src_dir </> file in
    present ← path_exists src;
    if (present : bool) then
      let dst := dst_dir </> file in
      data ← read_bytes E src;
      write_bytes E dst data
    else mret tt).

(** *** download.py *)

Definition download_body (model_name cache_dir : string) : Py unit :=
  print E (status_record "downloading_model") ;;
  model ← call E (AutoModel_from_pretrained model_name);
  print E (status_record "downloading_tokenizer") ;;
  tokenizer ← call E (AutoTokenizer_from_pretrained model_name);
  let cache_path := PurePath.of_string cache_dir in
  mkdir E cache_path ;;
  print E (status_record "saving_model") ;;
  call E (save_pretrained model cache_path) ;;
  print E (status_record "saving_tokenizer") ;;
  call E (save_pretrained tokenizer cache_path) ;;
  print E [("status", JStr "complete");
           ("cache_dir", JStr (PurePath.to_string cache_path))].

Definition download (argv : list string) : Py unit :=
  import_guard ["transformers"] "transformers not installed" ;;
  model_name ← sys_argv E argv 1;
  cache_dir ← sys_argv E argv 2;
  stage_boundary (download_body model_name cache_dir).

(** *** convert.py *)

Definition convert_body (cache_dir output_dir : string) : Py unit :=
  let output_path := PurePath.of_string output_dir in
  mkdir E output_path ;;
  print E (status_record "exporting_to_onnx") ;;
  call E (main_export cache_dir output_path "feature-extraction" 18 "cpu") ;;
  print E [("status", JStr "complete");
           ("output_dir", JStr (PurePath.to_string output_path))].

Definition convert (argv : list string) : Py unit :=
  import_guard ["optimum.exporters.onnx"; "transformers"]
               "optimum[exporters] not installed" ;;
  cache_dir ← sys_argv E argv 1;
  output_dir ← sys_argv E argv 2;
  stage_boundary (convert_body cache_dir output_dir).

(** *** optimize.py *)

Definition optimize_manifest : list string :=
  ["config.json"; "tokenizer.json"; "tokenizer_config.json";
   "special_tokens_map.json"; "vocab.txt"].

Definition optimize_body (model_path output_path : string)
    (num_heads hidden_size : Z) : Py unit :=
  print E (status_record "loading_model") ;;
  print E (status_record "optimizing") ;;
  fusion_options ← call E (FusionOptions "bert");
  optimized_model ←
    call E (optimize_model model_path "bert" num_heads hidden_size
                           fusion_options true true);
  print E (status_record "saving") ;;
  mkdir E (PurePath.parent (PurePath.of_string output_path)) ;;
  call E (save_model_to_file optimized_model output_path) ;;
  let model_input_dir := PurePath.parent (PurePath.of_string model_path) in
  let output_dir := PurePath.parent (PurePath.of_string output_path) in
  copy_sidecars optimize_manifest model_input_dir output_dir ;;
  print E [("status", JStr "complete"); ("output_path", JStr output_path)].

Definition optimize (argv : list string) : Py unit :=
  import_guard ["onnxruntime.transformers.optimizer";
                "onnxruntime.transformers.fusion_options"]
               "onnxruntime not installed" ;;
  model_path ← sys_argv E argv 1;
  output_path ← sys_argv E argv 2;
  a3 ← sys_argv E argv 3;
  num_heads ← int E a3;
  a4 ← sys_argv E argv 4;
  hidden_size ← int E a4;
  stage_boundary (optimize_body model_path output_path num_heads hidden_size).

(** *** quantize.py *)

Definition quantize_manifest : list string :=
  ["tokenizer.json"; "tokenizer_config.json"; "special_tokens_map.json";
   "vocab.txt"; "config.json"].

Definition quantize_body (model_dir output_dir : string) : Py unit :=
  print E (status_record "loading_model") ;;
  let model_path := PurePath.of_string model_dir </> "model.onnx" in
  present ← path_exists model_path;
  (if (present : bool) then mret tt
   else raise {| exn_class := FileNotFoundError;
                 exn_text := "Model not found: " +:+ PurePath.to_string model_path |}) ;;
  let output_path := PurePath.of_string output_dir in
  mkdir E output_path ;;
  let quantized_model_path := output_path </> "model_quantized.onnx" in
  print E (status_record "quantizing") ;;
  call E (quantize_dynamic (PurePath.to_string model_path)
                           (PurePath.to_string quantized_model_path)
                           "QUInt8" true false
                           [("DefaultTensorType", "FLOAT")]) ;;
  copy_sidecars quantize_manifest (PurePath.of_string model_dir) output_path ;;
  print E [("status", JStr "complete");
           ("output_dir", JStr (PurePath.to_string output_path))].

Definition quantize (argv : list string) : Py unit :=
  import_guard ["onnxruntime.quantization"; "onnx"]
               "onnxruntime not installed" ;;
  model_dir ← sys_argv E argv 1;
  output_dir ← sys_argv E argv 2;
  stage_boundary (quantize_body model_dir output_dir).

(** *** verify.py *)

Definition default_test_text : string := "This is a test".

(** [sys.argv[3] if len(sys.argv) > 3 else "This is a test"] *)
Definition verify_test_text (argv : list string) : Py string :=
  if bool_decide (3 < length argv)%nat then sys_argv E argv 3
  else mret default_test_text.

Definition verify_body (model_path tokenizer_path test_text : string)
    : Py unit :=
  print E (status_record "loading_session") ;;
  session ← call E (InferenceSession model_path);
  print E (status_record "loading_tokenizer") ;;
  tokenizer ← call E (AutoTokenizer_from_pretrained tokenizer_path);
  print E (status_record "tokenizing") ;;
  inputs ← call E (tokenizer_call tokenizer test_text "np" true true);
  print E (status_record "running_inference") ;;
  outputs ← call E (session_run session inputs);
  t ← lift_res (item0 E outputs);
  output_shape ← lift_res (shape_of E t);
  t ← lift_res (item0 E outputs);
  output_mean ← lift_res (float_mean E t);
  t ← lift_res (item0 E outputs);
  output_std ← lift_res (float_std E t);
  print E [("status", JStr "complete");
           ("test_text", JStr test_text);
           ("output_shape", JInts output_shape);
           ("output_mean", JFloat output_mean);
           ("output_std", JFloat output_std)].

Definition verify (argv : list string) : Py unit :=
  import_ E "numpy" ;;
  import_guard ["onnxruntime"; "transformers"]
               "onnxruntime or transformers not installed" ;;
  model_path ← sys_argv E argv 1;
  tokenizer_path ← sys_argv E argv 2;
  test_text ← verify_test_text argv;
  stage_boundary (verify_body model_path tokenizer_path test_text).

End Scripts.

(** ** Running a stage as a process *)

Inductive Stage := Download | Export | Optimize | Quantize | Verify.

#[global] Instance Stage_eq_dec : EqDecision Stage.
Proof. solve_decision. Defined.

Definition script (E : Env) (s : Stage) : list string -> Py unit :=
  match s with
  | Download => download E
  | Export => convert E
  | Optimize => optimize E
  | Quantize => quantize E
  | Verify => verify E
  end.

Record Final := {
  final_fs : FS;
  final_trace : list Event;
  exit_status : Z;
}.

Definition initial (fs0 : FS) : World :=
  {| w_fs := fs0; w_pending := []; w_trace := [] |}.

(** What the operating system sees once the interpreter has ended: the
    buffer of standard output is written out at exit; a script that runs to
    its end exits with 0, [sys.exit(c)] with [c], and an exception nobody
    caught with 1 (its traceback goes to standard error). *)
Definition finish {A} (r : Outcome A * World) : Final :=
  {| final_fs := w_fs r.2;
     final_trace := w_trace r.2 ++ map EvDeliver (w_pending r.2);
     exit_status := match r.1 with
                    | Value _ => 0
                    | Raised _ => 1
                    | Exited c => c
                    end |}.

Definition run (E : Env) (s : Stage) (argv : list string) (fs0 : FS) : Final :=
  finish (script E s argv (initial fs0)).

(** The records printed, in order. *)
Fixpoint emitted (t : list Event) : list JsonRecord :=
  match t with
  | [] => []
  | EvPrint r :: t' => r :: emitted t'
  | _ :: t' => emitted t'
  end.

(** The records that reached the reader of the stream, in order. *)
Fixpoint delivered (t : list Event) : list JsonRecord :=
  match t with
  | [] => []
  | EvDeliver r :: t' => r :: delivered t'
  | _ :: t' => delivered t'
  end.

(** The library calls started, in order. *)
Fixpoint calls (t : list Event) : list LibCall :=
  match t with
  | [] => []
  | EvCall c :: t' => c :: calls t'
  | _ :: t' => calls t'
  end.

(** ** A concrete environment

    One possible behaviour of the libraries, used to run the scripts on
    concrete inputs: loading returns a fresh handle, saving and converting
    write the file they are asked to write and nothing else, and a model
    file that is missing makes the library raise. *)

Module Sample.

(** [int(s)] on a string of ASCII characters: blanks around the literal
    are dropped, a sign may come first, and single underscores may stand
    between digits. *)
Definition digit (c : ascii) : option Z :=
  let n := Z.of_N (Ascii.N_of_ascii c) in
  if bool_decide (48 <= n <= 57)%Z then Some (n - 48)%Z else None.

Definition blank (c : ascii) : bool :=
  let n := Z.of_N (Ascii.N_of_ascii c) in
  bool_decide (n = 32 \/ 9 <= n <= 13 \/ 28 <= n <= 31)%Z.

Fixpoint digits (s : string) (acc : Z) : option Z :=
  match s with
  | EmptyString => Some acc
  | String c rest =>
      match digit c with
      | Some d => digits rest (acc * 10 + d)%Z
      | None =>
          if bool_decide (c = "_"%char) then
            match rest with
            | String c' rest' =>
                match digit c' with
                | Some d => digits rest' (acc * 10 + d)%Z
                | None => None
                end
            | EmptyString => None
            end
          else None
      end
  end.

Definition unsigned (s : string) : option Z :=
  match s with
  | String c rest =>
      match digit c with
      | Some d => digits rest d
      | None => None
      end
  | EmptyString => None
  end.

Definition signed (s : string) : option Z :=
  match s with
  | String c rest =>
      if bool_decide (c = "+"%char) then unsigned rest
      else if bool_decide (c = "-"%char) then Z.opp <$> unsigned rest
      else unsigned s
  | EmptyString => None
  end.

Fixpoint strip_left (s : string) : string :=
  match s with
  | String c rest => if blank c then strip_left rest else s
  | EmptyString => EmptyString
  end.

Fixpoint strip_right (s : string) : string :=
  match s with
  | String c rest =>
      match strip_right rest with
      | EmptyString => if blank c then EmptyString else String c EmptyString
      | kept => String c kept
      end
  | EmptyString => EmptyString
  end.

Definition decimal (s : string) : option Z :=
  signed (strip_right (strip_left s)).

(** [str(e)] for the exceptions of the interpreter, as Python prints them
    for an operand without quotes or backslashes. *)
Definition quoted (operand : string) : string := "'" +:+ operand +:+ "'".

Definition text (c : ExnClass) (operand : string) : string :=
  match c with
  | ImportError => "No module named " +:+ quoted operand
  | IndexError => operand
  | ValueError => "invalid literal for int() with base 10: " +:+ quoted operand
  | FileNotFoundError => "[Errno 2] No such file or directory: " +:+ quoted operand
  | FileExistsError => "[Errno 17] File exists: " +:+ quoted operand
  | NotADirectoryError => "[Errno 20] Not a directory: " +:+ quoted operand
  | IsADirectoryError => "[Errno 21] Is a directory: " +:+ quoted operand
  | LibraryError name => name +:+ ": " +:+ operand
  end.

Definition failed (what : string) : Exn :=
  {| exn_class := LibraryError "RuntimeError"; exn_text := what |}.

Definition is_file (fs : FS) (p : Path) : bool :=
  match fs !! p with Some (File _) => true | _ => false end.

Definition libraries (c : LibCall) (fs : FS) : Res PyObj * FS :=
  match c with
  | AutoModel_from_pretrained _ => (Ok (Handle 1), fs)
  | AutoTokenizer_from_pretrained _ => (Ok (Handle 2), fs)
  | save_pretrained (Handle 1) d =>
      (Ok (Handle 0),
       <[d </> "model.safetensors" := File "weights"]>
         (<[d </> "config.json" := File "{}"]> fs))
  | save_pretrained _ d =>
      (Ok (Handle 0), <[d </> "tokenizer.json" := File "tok"]> fs)
  | main_export src out _ _ _ =>
      if is_file fs (PurePath.of_string src </> "model.safetensors")
      then (Ok (Handle 0), <[out </> "model.onnx" := File "onnx"]> fs)
      else (Err (failed "no weights to export"), fs)
  | FusionOptions _ => (Ok (Handle 3), fs)
  | optimize_model input _ _ _ _ _ _ =>
      if is_file fs (PurePath.of_string input)
      then (Ok (Handle 4), fs)
      else (Err (failed "cannot load model"), fs)
  | save_model_to_file _ out =>
      (Ok (Handle 0), <[PurePath.of_string out := File "optimized"]> fs)
  | quantize_dynamic input out _ _ _ _ =>
      if is_file fs (PurePath.of_string input)
      then (Ok (Handle 0), <[PurePath.of_string out := File "quantized"]> fs)
      else (Err (failed "cannot load model"), fs)
  | InferenceSession m =>
      if is_file fs (PurePath.of_string m)
      then (Ok (Handle 5), fs)
      else (Err (failed "cannot load model"), fs)
  | tokenizer_call _ _ _ _ _ => (Ok (Handle 6), fs)
  | session_run _ _ => (Ok (Handle 7), fs)
  end.

(** Everything installed, standard output written through line by line. *)
Definition env : Env :=
  {| importable := fun _ => true;
     py_int := decimal;
     spills := fun _ => true;
     runtime_text := text;
     lib := libraries;
     item0 := fun _ => Ok (Handle 8);
     shape_of := fun _ => Ok [1; 6; 384]%Z;
     float_mean := fun _ => Ok (FloatRepr "0.0123");
     float_std := fun _ => Ok (FloatRepr "0.4567") |}.

(** The same, with standard output a pipe whose buffer is never filled by
    the few short lines of a run. *)
Definition env_piped : Env :=
  {| importable := importable env;
     py_int := py_int env;
     spills := fun _ => false;
     runtime_text := runtime_text env;
     lib := lib env;
     item0 := item0 env;
     shape_of := shape_of env;
     float_mean := float_mean env;
     float_std := float_std env |}.

(** The same as [env], with a disk that fills up while the tokenizer is
    saved: the library leaves a truncated file and raises. *)
Definition libraries_disk_full (c : LibCall) (fs : FS) : Res PyObj * FS :=
  match c with
  | save_pretrained (Handle 2) d =>
      (Err (failed "No space left on device"),
       <[d </> "tokenizer.json" := File "to"]> fs)
  | _ => libraries c fs
  end.

Definition env_disk_full : Env :=
  {| importable := importable env;
     py_int := py_int env;
     spills := spills env;
     runtime_text := runtime_text env;
     lib := libraries_disk_full;
     item0 := item0 env;
     shape_of := shape_of env;
     float_mean := float_mean env;
     float_std := float_std env |}.

(** An interpreter with none of the packages installed. *)
Definition env_bare : Env :=
  {| importable := fun _ => false;
     py_int := py_int env;
     spills := spills env;
     runtime_text := runtime_text env;
     lib := lib env;
     item0 := item0 env;
     shape_of := shape_of env;
     float_mean := float_mean env;
     float_std := float_std env |}.

(** An interpreter with numpy and nothing else. *)
Definition env_numpy_only : Env :=
  {| importable := fun m => bool_decide (m = "numpy");
     py_int := py_int env;
     spills := spills env;
     runtime_text := runtime_text env;
     lib := lib env;
     item0 := item0 env;
     shape_of := shape_of env;
     float_mean := float_mean env;
     float_std := float_std env |}.

(** A dry run: the libraries answer as in [env] and write nothing. *)
Definition env_dry : Env :=
  {| importable := importable env;
     py_int := py_int env;
     spills := spills env;
     runtime_text := runtime_text env;
     lib := fun c fs => ((libraries c fs).1, fs);
     item0 := item0 env;
     shape_of := shape_of env;
     float_mean := float_mean env;
     float_std := float_std env |}.

Definition dir (s : string) : Path * Node := (PurePath.of_string s, Dir).
Definition file (s data : string) : Path * Node :=
  (PurePath.of_string s, File data).

Definition disk (l : list (Path * Node)) : FS := list_to_map l.

End Sample.

(** ** What a run lets an observer see of a world *)

Record Obs := {
  o_fs : FS;
  o_out : list JsonRecord;
  o_calls : list LibCall;
}.

Definition obs (w : World) : Obs :=
  {| o_fs := w_fs w;
     o_out := emitted (w_trace w);
     o_calls := calls (w_trace w) |}.

(** The postcondition [Q] holds of the outcome of [m] started in [w]. *)
Definition wp {A} (m : Py A) (w : World) (Q : Outcome A -> World -> Prop) : Prop :=
  Q (m w).1 (m w).2.

(** Nothing of [w] but the filesystem changes. *)
Definition with_fs (fs : FS) (o : Obs) : Obs :=
  {| o_fs := fs; o_out := o_out o; o_calls := o_calls o |}.

Definition with_out (r : JsonRecord) (o : Obs) : Obs :=
  {| o_fs := o_fs o; o_out := o_out o ++ [r]; o_calls := o_calls o |}.

Definition with_call (c : LibCall) (fs : FS) (o : Obs) : Obs :=
  {| o_fs := fs; o_out := o_out o; o_calls := o_calls o ++ [c] |}.

(** ** Delivery of the printed records *)

(** Every printed record is delivered before anything else happens. *)
Fixpoint prompt (t : list Event) : bool :=
  match t with
  | [] => true
  | EvPrint r :: EvDeliver r' :: t' => bool_decide (r = r') && prompt t'
  | EvCall _ :: t' => prompt t'
  | _ => false
  end.

(** The records of the buffer are those printed and not yet delivered. *)
Definition buffer_ok (w : World) : Prop :=
  delivered (w_trace w) ++ w_pending w = emitted (w_trace w).

(** ** Arguments a stage can work with *)

Definition args_ok (E : Env) (s : Stage) (argv : list string) : bool :=
  match s with
  | Optimize =>
      match argv !! 3%nat, argv !! 4%nat with
      | Some a3, Some a4 =>
          bool_decide (is_Some (py_int E a3)) && bool_decide (is_Some (py_int E a4))
      | _, _ => false
      end
  | _ => bool_decide (3 <= length argv)%nat
  end.

(** The modules a stage imports under its guard, and the message of the
    guard. *)
Definition guarded_modules (s : Stage) : list string :=
  match s with
  | Download => ["transformers"]
  | Export => ["optimum.exporters.onnx"; "transformers"]
  | Optimize => ["onnxruntime.transformers.optimizer";
                 "onnxruntime.transformers.fusion_options"]
  | Quantize => ["onnxruntime.quantization"; "onnx"]
  | Verify => ["onnxruntime"; "transformers"]
  end.

Definition guard_message (s : Stage) : string :=
  match s with
  | Download => "transformers not installed"
  | Export => "optimum[exporters] not installed"
  | Optimize => "onnxruntime not installed"
  | Quantize => "onnxruntime not installed"
  | Verify => "onnxruntime or transformers not installed"
  end.

(** The modules a stage imports before its guard. *)
Definition unguarded_modules (s : Stage) : list string :=
  match s with
  | Verify => ["numpy"]
  | _ => []
  end.

(** The [try] block of a stage, once its arguments are read. *)
Definition stage_body (E : Env) (s : Stage) (argv : list string) : option (Py unit) :=
  match s with
  | Download =>
      m ← argv !! 1%nat; d ← argv !! 2%nat; Some (download_body E m d)
  | Export =>
      c ← argv !! 1%nat; o ← argv !! 2%nat; Some (convert_body E c o)
  | Optimize =>
      m ← argv !! 1%nat; o ← argv !! 2%nat;
      a3 ← argv !! 3%nat; h ← py_int E a3;
      a4 ← argv !! 4%nat; z ← py_int E a4;
      Some (optimize_body E m o h z)
  | Quantize =>
      m ← argv !! 1%nat; o ← argv !! 2%nat; Some (quantize_body E m o)
  | Verify =>
      m ← argv !! 1%nat; t ← argv !! 2%nat;
      Some (verify_body E m t (default default_test_text (argv !! 3%nat)))
  end.


(** The manifest a stage copies. *)
Definition stage_manifest (s : Stage) : list string :=
  match s with
  | Optimize => optimize_manifest
  | Quantize => quantize_manifest
  | _ => []
  end.

(** What a finished run lets an observer see. *)
Definition observed (f : Final) : Obs :=
  {| o_fs := final_fs f;
     o_out := emitted (final_trace f);
     o_calls := calls (final_trace f) |}.

(** The status tags of a stage, in the order of its substeps. *)
Definition progress_of (s : Stage) : list string :=
  match s with
  | Download => ["downloading_model"; "downloading_tokenizer";
                 "saving_model"; "saving_tokenizer"]
  | Export => ["exporting_to_onnx"]
  | Optimize => ["loading_model"; "optimizing"; "saving"]
  | Quantize => ["loading_model"; "quantizing"]
  | Verify => ["loading_session"; "loading_tokenizer"; "tokenizing";
               "running_inference"]
  end.

(** The success record of a stage run with the arguments [argv]. *)
Definition success_record (s : Stage) (argv : list string) (r : JsonRecord) : Prop :=
  match s with
  | Download =>
      exists d, argv !! 2%nat = Some d /\
        r = [("status", JStr "complete");
             ("cache_dir", JStr (PurePath.to_string (PurePath.of_string d)))]
  | Export | Quantize =>
      exists d, argv !! 2%nat = Some d /\
        r = [("status", JStr "complete");
             ("output_dir", JStr (PurePath.to_string (PurePath.of_string d)))]
  | Optimize =>
      exists p, argv !! 2%nat = Some p /\
        r = [("status", JStr "complete"); ("output_path", JStr p)]
  | Verify =>
      exists shape mean std,
        r = [("status", JStr "complete");
             ("test_text", JStr (default default_test_text (argv !! 3%nat)));
             ("output_shape", JInts shape);
             ("output_mean", JFloat mean);
             ("output_std", JFloat std)]
  end.

Definition imports_ok (E : Env) (s : Stage) : bool :=
  forallb (importable E) (unguarded_modules s) &&
  forallb (importable E) (guarded_modules s).

(** The four ways a stage run ends. *)
Inductive RunCase (E : Env) (s : Stage) (argv : list string) (fs0 : FS)
    (f : Final) : Prop :=
| crashed :
    (* an exception outside the [try] block: a traceback, no record *)
    forallb (importable E) (unguarded_modules s) = false \/
      (imports_ok E s = true /\ stage_body E s argv = None) ->
    exit_status f = 1%Z ->
    observed f = obs (initial fs0) ->
    RunCase E s argv fs0 f
| refused :
    (* the import guard *)
    forallb (importable E) (unguarded_modules s) = true ->
    forallb (importable E) (guarded_modules s) = false ->
    exit_status f = 1%Z ->
    observed f = with_out (error_record (guard_message s)) (obs (initial fs0)) ->
    RunCase E s argv fs0 f
| failed body e w' k :
    (* the body raised [e] in the world [w'] *)
    imports_ok E s = true ->
    stage_body E s argv = Some body ->
    body (initial fs0) = (Raised e, w') ->
    o_out (obs w') = map status_record (take k (progress_of s)) ->
    exit_status f = 1%Z ->
    observed f = with_out (error_record (exn_text e)) (obs w') ->
    RunCase E s argv fs0 f
| completed body w' final :
    (* the body ran to its end in the world [w'] *)
    imports_ok E s = true ->
    stage_body E s argv = Some body ->
    body (initial fs0) = (Value tt, w') ->
    success_record s argv final ->
    o_out (obs w') = map status_record (progress_of s) ++ [final] ->
    exit_status f = 0%Z ->
    observed f = obs w' ->
    RunCase E s argv fs0 f.


(** [m] keeps the invariant [I] of the world, however it ends. *)
Definition keeps (I : World -> Prop) {A} (m : Py A) : Prop :=
  forall w, I w -> I (m w).2.

(** A statement that leaves the world as it is. *)
Definition silent {A} (m : Py A) : Prop := forall w, (m w).2 = w.

(** The directory a stage creates and writes into. *)
Definition stage_out (s : Stage) (argv : list string) : option Path :=
  match s with
  | Download | Export | Quantize =>
      o ← argv !! 2%nat; Some (PurePath.of_string o)
  | Optimize =>
      o ← argv !! 2%nat; Some (PurePath.parent (PurePath.of_string o))
  | Verify => None
  end.

(** With a stream that writes every line through, nothing is pending and
    the trace is prompt. *)
Definition written_through (w : World) : Prop :=
  w_pending w = [] /\ prompt (w_trace w) = true.



(** No slash occurs in [s]. *)
Fixpoint no_slash (s : string) : Prop :=
  match s with
  | EmptyString => True
  | String c r => c <> PurePath.slash /\ no_slash r
  end.

(** A component as [Path(...)] keeps it: not empty, not a dot, without a
    slash. *)
Definition component (x : string) : Prop :=
  PurePath.keep_part x = true /\ no_slash x.

(** The paths that [Path(...)] produces. *)
Definition parsed (p : Path) : Prop :=
  (PurePath.root p = "" \/ PurePath.root p = "/" \/ PurePath.root p = "//") /\
  Forall component (PurePath.parts p).

(** The key under which a stage reports where its output is. *)
Definition report_key (s : Stage) : string :=
  match s with
  | Download => "cache_dir"
  | Optimize => "output_path"
  | _ => "output_dir"
  end.

(** The directory that a reported location denotes: Optimize reports a
    file, the other stages a directory. *)
Definition located (s : Stage) (reported : string) : Path :=
  match s with
  | Optimize => PurePath.parent (PurePath.of_string reported)
  | _ => PurePath.of_string reported
  end.



(** The library call [c] can return [v]. *)
Definition returned (E : Env) (c : LibCall) (v : PyObj) : Prop :=
  exists fs fs', lib E c fs = (Ok v, fs').

(** The library calls of a successful run of a stage, in order: the
    arguments are those of the command line, and an object goes to the call
    that follows the one that returned it. *)
Definition success_calls (E : Env) (s : Stage) (argv : list string)
    (cs : list LibCall) : Prop :=
  match s with
  | Download =>
      exists m d model tok,
        argv !! 1%nat = Some m /\ argv !! 2%nat = Some d /\
        returned E (AutoModel_from_pretrained m) model /\
        returned E (AutoTokenizer_from_pretrained m) tok /\
        cs = [AutoModel_from_pretrained m;
              AutoTokenizer_from_pretrained m;
              save_pretrained model (PurePath.of_string d);
              save_pretrained tok (PurePath.of_string d)]
  | Export =>
      exists c o,
        argv !! 1%nat = Some c /\ argv !! 2%nat = Some o /\
        cs = [main_export c (PurePath.of_string o) "feature-extraction" 18 "cpu"]
  | Optimize =>
      exists m o a3 a4 heads hidden opts model,
        argv !! 1%nat = Some m /\ argv !! 2%nat = Some o /\
        argv !! 3%nat = Some a3 /\ argv !! 4%nat = Some a4 /\
        py_int E a3 = Some heads /\ py_int E a4 = Some hidden /\
        returned E (FusionOptions "bert") opts /\
        returned E (optimize_model m "bert" heads hidden opts true true) model /\
        cs = [FusionOptions "bert";
              optimize_model m "bert" heads hidden opts true true;
              save_model_to_file model o]
  | Quantize =>
      exists m o,
        argv !! 1%nat = Some m /\ argv !! 2%nat = Some o /\
        cs = [quantize_dynamic
                (PurePath.to_string (PurePath.of_string m </> "model.onnx"))
                (PurePath.to_string (PurePath.of_string o </> "model_quantized.onnx"))
                "QUInt8" true false [("DefaultTensorType", "FLOAT")]]
  | Verify =>
      exists m t session tok inputs,
        argv !! 1%nat = Some m /\ argv !! 2%nat = Some t /\
        returned E (InferenceSession m) session /\
        returned E (AutoTokenizer_from_pretrained t) tok /\
        returned E (tokenizer_call tok (default default_test_text (argv !! 3%nat))
                                   "np" true true) inputs /\
        cs = [InferenceSession m;
              AutoTokenizer_from_pretrained t;
              tokenizer_call tok (default default_test_text (argv !! 3%nat))
                             "np" true true;
              session_run session inputs]
  end.


(** The library call [c] does not take the directory [d] away. *)
Definition keeps_directory (E : Env) (d : Path) (c : LibCall) : Prop :=
  forall fs r fs', lib E c fs = (r, fs') ->
    stat fs d = Some Dir -> stat fs' d = Some Dir.

(** * Properties *)

(** ** Reading integers *)

Example decimal_reads :
  Sample.decimal "12" = Some 12%Z /\
  Sample.decimal " -1_2 " = Some (-12)%Z /\
  Sample.decimal "+3_84" = Some 384%Z /\
  Sample.decimal "012" = Some 12%Z /\
  Sample.decimal "1__2" = None /\
  Sample.decimal "_12" = None /\
  Sample.decimal "12_" = None /\
  Sample.decimal "1 2" = None /\
  Sample.decimal "+ 12" = None /\
  Sample.decimal "twelve" = None /\
  Sample.decimal "" = None.
Proof. repeat split; reflexivity. Qed.

Example text_of_missing_file :
  Sample.text FileNotFoundError "/tmp/q" = "[Errno 2] No such file or directory: '/tmp/q'".
Proof. reflexivity. Qed.

(** ** Parsing and printing paths *)

Example of_string_abs : PurePath.to_string (PurePath.of_string "/tmp/c") = "/tmp/c".
Proof. reflexivity. Qed.
Example of_string_trailing : PurePath.to_string (PurePath.of_string "/tmp/c/") = "/tmp/c".
Proof. reflexivity. Qed.
Example of_string_dots : PurePath.to_string (PurePath.of_string "a/./b//c") = "a/b/c".
Proof. reflexivity. Qed.
Example of_string_empty : PurePath.to_string (PurePath.of_string "") = ".".
Proof. reflexivity. Qed.
Example of_string_two : PurePath.to_string (PurePath.of_string "//a") = "//a".
Proof. reflexivity. Qed.
Example of_string_three : PurePath.to_string (PurePath.of_string "///a") = "/a".
Proof. reflexivity. Qed.
Example parent_of_file :
  PurePath.to_string (PurePath.parent (PurePath.of_string "model.onnx")) = ".".
Proof. reflexivity. Qed.

(** ** Traces *)

Lemma emitted_app t1 t2 : emitted (t1 ++ t2) = emitted t1 ++ emitted t2.
Proof. induction t1 as [|[r|r|c] t1 IH]; simpl; [done|by rewrite IH|done|done]. Qed.

Lemma delivered_app t1 t2 : delivered (t1 ++ t2) = delivered t1 ++ delivered t2.
Proof. induction t1 as [|[r|r|c] t1 IH]; simpl; [done|done|by rewrite IH|done]. Qed.

Lemma calls_app t1 t2 : calls (t1 ++ t2) = calls t1 ++ calls t2.
Proof. induction t1 as [|[r|r|c] t1 IH]; simpl; [done|done|done|by rewrite IH]. Qed.

Lemma emitted_deliver rs : emitted (map EvDeliver rs) = [].
Proof. by induction rs. Qed.

Lemma calls_deliver rs : calls (map EvDeliver rs) = [].
Proof. by induction rs. Qed.

Lemma delivered_deliver rs : delivered (map EvDeliver rs) = rs.
Proof. induction rs; simpl; [done|by f_equal]. Qed.

(** ** Rules of the program logic *)

Section Logic.

Variable E : Env.

Lemma wp_ret {A} (a : A) w Q : Q (Value a) w -> wp (mret a) w Q.
Proof. done. Qed.

Lemma wp_raise {A} e w (Q : Outcome A -> World -> Prop) :
  Q (Raised e) w -> wp (raise e) w Q.
Proof. done. Qed.

Lemma wp_exit {A} c w (Q : Outcome A -> World -> Prop) :
  Q (Exited c) w -> wp (sys_exit c) w Q.
Proof. done. Qed.

Lemma wp_bind {A B} (m : Py A) (k : A -> Py B) w Q :
  wp m w (fun o w' =>
            match o with
            | Value a => wp (k a) w' Q
            | Raised e => Q (Raised e) w'
            | Exited c => Q (Exited c) w'
            end) ->
  wp (m ≫= k) w Q.
Proof.
  unfold wp, mbind, Py_bind, bind.
  by destruct (m w) as [[a|e|c] w'].
Qed.

Lemma wp_try {A} (body : Py A) (catches : ExnClass -> bool)
    (handler : Exn -> Py A) w Q :
  wp body w (fun o w' =>
               match o with
               | Raised e =>
                   if catches (exn_class e) then wp (handler e) w' Q
                   else Q (Raised e) w'
               | _ => Q o w'
               end) ->
  wp (try_except body catches handler) w Q.
Proof.
  unfold wp, try_except.
  destruct (body w) as [[a|e|c] w']; simpl; [done| |done].
  by destruct (catches (exn_class e)).
Qed.

Lemma wp_mono {A} (m : Py A) w (Q Q' : Outcome A -> World -> Prop) :
  wp m w Q -> (forall o w', Q o w' -> Q' o w') -> wp m w Q'.
Proof. unfold wp. auto. Qed.

Lemma wp_print r w Q :
  (forall w', obs w' = with_out r (obs w) -> Q (Value tt) w') ->
  wp (print E r) w Q.
Proof.
  intros H. unfold wp, print.
  destruct (spills E (w_pending w ++ [r])); simpl; apply H;
    unfold obs, with_out; simpl; f_equal;
    rewrite ?emitted_app, ?calls_app; simpl;
    rewrite ?emitted_deliver, ?calls_deliver, ?app_nil_r; done.
Qed.

Lemma wp_call c w Q :
  (forall v fs' w', lib E c (w_fs w) = (Ok v, fs') ->
                    obs w' = with_call c fs' (obs w) -> Q (Value v) w') ->
  (forall e fs' w', lib E c (w_fs w) = (Err e, fs') ->
                    obs w' = with_call c fs' (obs w) -> Q (Raised e) w') ->
  wp (call E c) w Q.
Proof.
  intros Hv He. unfold wp, call.
  destruct (lib E c (w_fs w)) as [[v|e] fs'] eqn:Hl; simpl;
    [eapply Hv|eapply He]; try done;
    unfold obs, with_call; simpl; f_equal;
    rewrite ?emitted_app, ?calls_app; simpl; by rewrite ?app_nil_r.
Qed.

Lemma wp_import m w Q :
  (importable E m = true -> Q (Value tt) w) ->
  (importable E m = false -> Q (Raised (builtin E ImportError m)) w) ->
  wp (import_ E m) w Q.
Proof.
  intros Ht Hf. unfold wp, import_.
  destruct (importable E m); simpl; auto.
Qed.

Lemma wp_argv argv i w Q :
  (forall s, argv !! i = Some s -> Q (Value s) w) ->
  (argv !! i = None ->
   Q (Raised (builtin E IndexError "list index out of range")) w) ->
  wp (sys_argv E argv i) w Q.
Proof.
  intros Hs Hn. unfold wp, sys_argv.
  destruct (argv !! i); simpl; auto.
Qed.

Lemma wp_int s w Q :
  (forall z, py_int E s = Some z -> Q (Value z) w) ->
  (py_int E s = None -> Q (Raised (builtin E ValueError s)) w) ->
  wp (int E s) w Q.
Proof.
  intros Hs Hn. unfold wp, int.
  destruct (py_int E s); simpl; auto.
Qed.

Lemma wp_lift_res {A} (r : Res A) w Q :
  (forall a, r = Ok a -> Q (Value a) w) ->
  (forall e, r = Err e -> Q (Raised e) w) ->
  wp (lift_res r) w Q.
Proof. intros Hv He. unfold wp, lift_res. destruct r; simpl; auto. Qed.

Lemma wp_path_exists p w Q :
  Q (Value (exists_ (w_fs w) p)) w -> wp (path_exists p) w Q.
Proof. done. Qed.

Lemma wp_lift_fs r w Q :
  (forall w', r.1 = None -> obs w' = with_fs r.2 (obs w) -> Q (Value tt) w') ->
  (forall c p w', r.1 = Some (c, p) -> obs w' = with_fs r.2 (obs w) ->
                  Q (Raised (builtin E c (PurePath.to_string p))) w') ->
  wp (lift_fs E r) w Q.
Proof.
  intros Hv He. unfold wp, lift_fs.
  destruct r as [[[c p]|] fs']; simpl in *; [eapply He|eapply Hv]; done.
Qed.

Lemma wp_mkdir p w Q :
  (forall fs' w',
      mkdir_parents (PurePath.root p) (rev (PurePath.parts p)) (w_fs w) = (None, fs') ->
      obs w' = with_fs fs' (obs w) -> Q (Value tt) w') ->
  (forall c q fs' w',
      mkdir_parents (PurePath.root p) (rev (PurePath.parts p)) (w_fs w)
        = (Some (c, q), fs') ->
      obs w' = with_fs fs' (obs w) ->
      Q (Raised (builtin E c (PurePath.to_string q))) w') ->
  wp (mkdir E p) w Q.
Proof.
  intros Hv He. unfold mkdir, wp at 1.
  change (wp (lift_fs E (mkdir_parents (PurePath.root p)
                (rev (PurePath.parts p)) (w_fs w))) w Q).
  destruct (mkdir_parents _ _ _) as [[[c q]|] fs'] eqn:Hm;
    apply wp_lift_fs; simpl; intros; simplify_eq; eauto.
Qed.

(** The import guard either lets the script go on in the same world, or
    prints its message and exits with status 1. *)
Lemma wp_import_guard mods msg w Q :
  (forallb (importable E) mods = true -> Q (Value tt) w) ->
  (forallb (importable E) mods = false ->
   forall w', obs w' = with_out (error_record msg) (obs w) -> Q (Exited 1) w') ->
  wp (import_guard E mods msg) w Q.
Proof.
  intros Hok Hko. unfold import_guard. apply wp_try.
  assert (Hloop :
    wp (for_each mods (import_ E)) w (fun o w' =>
      w' = w /\
      match o with
      | Value _ => forallb (importable E) mods = true
      | Raised e => exn_class e = ImportError /\ forallb (importable E) mods = false
      | Exited _ => False
      end)).
  { clear Hok Hko. induction mods as [|m mods IH]; simpl; [done|].
    apply wp_bind, wp_import; intros Hm; rewrite Hm; simpl; [|done].
    exact IH. }
  eapply wp_mono; [exact Hloop|]. simpl.
  intros [[]|e|c] w' [-> H]; [auto| |done].
  destruct H as [-> H]. simpl.
  apply wp_bind, wp_print. intros w' Hw'. apply wp_exit. eauto.
Qed.

(** The [try] block of a stage: what its body raises becomes an error
    record with the exception's text, followed by exit status 1. *)
Lemma wp_stage_boundary body w Q :
  wp body w (fun o w' =>
               match o with
               | Raised e =>
                   forall w'', obs w'' = with_out (error_record (exn_text e)) (obs w') ->
                               Q (Exited 1) w''
               | _ => Q o w'
               end) ->
  wp (stage_boundary E body) w Q.
Proof.
  intros H. unfold stage_boundary. apply wp_try.
  eapply wp_mono; [exact H|]. simpl.
  intros [a|e|c] w' HQ; [done| |done].
  apply wp_bind, wp_print. intros w'' Hw''. apply wp_exit. eauto.
Qed.

End Logic.

(** ** The common shape of the five scripts *)

Lemma observed_finish {A} (r : Outcome A * World) : observed (finish r) = obs r.2.
Proof.
  unfold observed, finish, obs. simpl.
  by rewrite emitted_app, calls_app, emitted_deliver, calls_deliver, !app_nil_r.
Qed.

Ltac wp_beta := cbv beta iota zeta.

Ltac wp_seq := wp_beta; apply wp_bind.

Section Shape.

Variable E : Env.

Lemma wp_script s argv w Q :
  (forallb (importable E) (unguarded_modules s) = false ->
   forall e, Q (Raised e) w) ->
  (forallb (importable E) (unguarded_modules s) = true ->
   forallb (importable E) (guarded_modules s) = false ->
   forall w', obs w' = with_out (error_record (guard_message s)) (obs w) ->
              Q (Exited 1) w') ->
  (forallb (importable E) (unguarded_modules s) = true ->
   forallb (importable E) (guarded_modules s) = true ->
   stage_body E s argv = None ->
   forall e, Q (Raised e) w) ->
  (forallb (importable E) (unguarded_modules s) = true ->
   forallb (importable E) (guarded_modules s) = true ->
   forall body, stage_body E s argv = Some body ->
                wp (stage_boundary E body) w Q) ->
  wp (script E s argv) w Q.
Proof.
  intros Hpre Hguard Hargs Hbody.
  destruct s; simpl script;
    unfold download, convert, optimize, quantize, verify.
  - wp_seq. apply wp_import_guard; [intros Hg|by apply Hguard].
    wp_seq. apply wp_argv; [intros a1 H1|intros H1].
    2: { apply Hargs; try done. simpl. by rewrite H1. }
    wp_seq. apply wp_argv; [intros a2 H2|intros H2].
    2: { apply Hargs; try done. simpl. by rewrite H1, H2. }
    wp_beta. apply Hbody; try done. simpl. by rewrite H1, H2.
  - wp_seq. apply wp_import_guard; [intros Hg|by apply Hguard].
    wp_seq. apply wp_argv; [intros a1 H1|intros H1].
    2: { apply Hargs; try done. simpl. by rewrite H1. }
    wp_seq. apply wp_argv; [intros a2 H2|intros H2].
    2: { apply Hargs; try done. simpl. by rewrite H1, H2. }
    wp_beta. apply Hbody; try done. simpl. by rewrite H1, H2.
  - wp_seq. apply wp_import_guard; [intros Hg|by apply Hguard].
    wp_seq. apply wp_argv; [intros a1 H1|intros H1].
    2: { apply Hargs; try done. simpl. by rewrite H1. }
    wp_seq. apply wp_argv; [intros a2 H2|intros H2].
    2: { apply Hargs; try done. simpl. by rewrite H1, H2. }
    wp_seq. apply wp_argv; [intros a3 H3|intros H3].
    2: { apply Hargs; try done. simpl. by rewrite H1, H2, H3. }
    wp_seq. apply wp_int; [intros z3 Hz3|intros Hz3].
    2: { apply Hargs; try done. simpl. by rewrite H1, H2, H3; simpl; rewrite Hz3. }
    wp_seq. apply wp_argv; [intros a4 H4|intros H4].
    2: { apply Hargs; try done. simpl.
         by rewrite H1, H2, H3; simpl; rewrite Hz3; simpl; rewrite H4. }
    wp_seq. apply wp_int; [intros z4 Hz4|intros Hz4].
    2: { apply Hargs; try done. simpl.
         by rewrite H1, H2, H3; simpl; rewrite Hz3; simpl; rewrite H4; simpl;
           rewrite Hz4. }
    wp_beta. apply Hbody; try done. simpl.
    by rewrite H1, H2, H3; simpl; rewrite Hz3; simpl; rewrite H4; simpl;
      rewrite Hz4.
  - wp_seq. apply wp_import_guard; [intros Hg|by apply Hguard].
    wp_seq. apply wp_argv; [intros a1 H1|intros H1].
    2: { apply Hargs; try done. simpl. by rewrite H1. }
    wp_seq. apply wp_argv; [intros a2 H2|intros H2].
    2: { apply Hargs; try done. simpl. by rewrite H1, H2. }
    wp_beta. apply Hbody; try done. simpl. by rewrite H1, H2.
  - wp_seq. apply wp_import; intros Hn.
    2: { apply Hpre. simpl. by rewrite Hn. }
    assert (Hu : forallb (importable E) (unguarded_modules Verify) = true)
      by (simpl; by rewrite Hn).
    wp_seq. apply wp_import_guard; [intros Hg|by apply Hguard].
    wp_seq. apply wp_argv; [intros a1 H1|intros H1].
    2: { apply Hargs; try done. simpl. by rewrite H1. }
    wp_seq. apply wp_argv; [intros a2 H2|intros H2].
    2: { apply Hargs; try done. simpl. by rewrite H1, H2. }
    wp_seq. unfold verify_test_text. case_bool_decide as Hlen.
    + apply wp_argv; [intros a3 H3|intros H3].
      2: { apply lookup_ge_None in H3. lia. }
      wp_beta. apply Hbody; try done. simpl. by rewrite H1, H2, H3.
    + apply wp_ret. wp_beta. apply Hbody; try done. simpl.
      rewrite H1, H2. simpl.
      by rewrite (proj2 (lookup_ge_None argv 3)) by lia.
Qed.

End Shape.

(** ** Paths and the filesystem *)

Lemma child_inj d1 d2 f1 f2 : d1 </> f1 = d2 </> f2 -> d1 = d2 /\ f1 = f2.
Proof.
  destruct d1 as [r1 p1], d2 as [r2 p2]. unfold PurePath.child. simpl.
  intros H. injection H as Hr Hp. apply app_inj_tail in Hp as [-> ->]. by subst.
Qed.

Lemma child_name_ne d1 d2 f1 f2 : f1 <> f2 -> d1 </> f1 <> d2 </> f2.
Proof. intros Hne H. by apply child_inj in H as [_ ?]. Qed.

Lemma stat_child fs d f : stat fs (d </> f) = fs !! (d </> f).
Proof. unfold stat. simpl. by destruct (PurePath.parts d). Qed.

Lemma within_refl p : PurePath.within p p.
Proof. split; [done|]. exists []. by rewrite app_nil_r. Qed.

Lemma within_parent p q :
  PurePath.within p q -> PurePath.within (PurePath.parent p) q.
Proof.
  intros [Hr [rest Hp]]. split; [done|]. unfold PurePath.parent. simpl.
  destruct (PurePath.parts p) as [|x xs] eqn:Hx using rev_ind.
  - by exists rest.
  - rewrite removelast_last. exists (x :: rest). by rewrite Hp, <- app_assoc.
Qed.


Lemma below_child d f : PurePath.below d (d </> f).
Proof. split; [done|]. by exists f, []. Qed.

Lemma within_below_trans p q r :
  PurePath.within p q -> PurePath.below q r -> PurePath.below p r.
Proof.
  intros [Hr1 (rest & H1)] [Hr2 (x & rest' & H2)]. split; [congruence|].
  destruct rest as [|y rest].
  - exists x, rest'. by rewrite H2, H1, app_nil_r.
  - exists y, (rest ++ x :: rest'). by rewrite H2, H1, <- app_assoc.
Qed.

(** [os.mkdir] adds at most the directory it is asked for. *)
Lemma os_mkdir_spec p fs c fs' :
  os_mkdir p fs = (c, fs') ->
  forall q, fs' !! q = fs !! q \/ (q = p /\ fs !! q = None /\ fs' !! q = Some Dir).
Proof.
  unfold os_mkdir. intros H q.
  destruct (PurePath.parts p); [simplify_eq; auto|].
  destruct (stat fs (PurePath.parent p)) as [[]|]; simplify_eq; auto.
  destruct (fs !! p) eqn:Hp; simplify_eq; auto.
  destruct (decide (q = p)) as [->|Hne].
  - right. by rewrite lookup_insert_eq.
  - left. by rewrite lookup_insert_ne.
Qed.

Lemma mkdir_exist_ok_spec p fs c fs' :
  mkdir_exist_ok p fs = (c, fs') ->
  forall q, fs' !! q = fs !! q \/ (q = p /\ fs !! q = None /\ fs' !! q = Some Dir).
Proof.
  unfold mkdir_exist_ok. intros H q.
  destruct (os_mkdir p fs) as [[c0|] fs0] eqn:Hos.
  - pose proof (os_mkdir_spec _ _ _ _ Hos q) as Hq.
    destruct c0; try (destruct (is_dir fs0 p)); by simplify_eq.
  - simplify_eq. by eapply os_mkdir_spec.
Qed.

(** [mkdir(parents=True, exist_ok=True)] adds directories only, and only
    at the path it is asked for and at its ancestors. *)
Lemma mkdir_parents_spec root rparts fs c fs' :
  mkdir_parents root rparts fs = (c, fs') ->
  forall q, fs' !! q = fs !! q \/
            (PurePath.within q (PurePath.mk root (rev rparts)) /\
             fs !! q = None /\ fs' !! q = Some Dir).
Proof.
  revert fs c fs'. induction rparts as [|x up IH]; intros fs c fs' H q.
  - simpl in H. simplify_eq. auto.
  - cbn [mkdir_parents] in H.
    set (self := PurePath.mk root (rev (x :: up))) in *.
    destruct (os_mkdir self fs) as [[c0|] fs0] eqn:Hos.
    + assert (fs0 = fs) as ->.
      { unfold os_mkdir in Hos. destruct (PurePath.parts self); [by simplify_eq|].
        destruct (stat fs _) as [[]|]; simplify_eq; try done.
        destruct (fs !! self); by simplify_eq. }
      assert (Hother : (if is_dir fs self then (None, fs) else (Some (c0, self), fs))
                         = (c, fs') -> fs' !! q = fs !! q).
      { destruct (is_dir fs self); by intros ?; simplify_eq. }
      destruct c0; try (left; by apply Hother).
      assert (Hlift : forall p, PurePath.within p (PurePath.mk root (rev up)) ->
                                PurePath.within p self).
      { intros p [Hr [rest Hp]]. split; [done|]. simpl in *.
        exists (rest ++ [x]). by rewrite Hp, <- app_assoc. }
      destruct (mkdir_parents root up fs) as [[e1|] fs1] eqn:Hrec.
      * simplify_eq. destruct (IH _ _ _ Hrec q) as [?|(Hw & ? & ?)]; [by left|].
        right. split; [by apply Hlift|done].
      * destruct (mkdir_exist_ok self fs1) as [c2 fs2] eqn:Hex.
        unfold at_path in H. simpl in H. assert (fs2 = fs') as -> by by simplify_eq.
        destruct (IH _ _ _ Hrec q) as [Hq1|(Hw & Hq0 & Hq1)];
          destruct (mkdir_exist_ok_spec _ _ _ _ Hex q) as [Hq2|(-> & Hq2 & Hq3)].
        -- left. congruence.
        -- right. split; [apply within_refl|]. split; congruence.
        -- right. split; [by apply Hlift|split; congruence].
        -- congruence.
    + simplify_eq. destruct (os_mkdir_spec _ _ _ _ Hos q) as [?|(-> & ? & ?)]; [by left|].
      right. split; [apply within_refl|done].
Qed.

Lemma os_write_spec p data fs :
  os_write p data fs = (None, <[p := File data]> fs) \/
  exists c, os_write p data fs = (Some c, fs).
Proof.
  unfold os_write. destruct (PurePath.parts p); [eauto|].
  destruct (stat fs (PurePath.parent p)) as [[]|]; eauto.
  destruct (fs !! p) as [[]|]; eauto.
Qed.

Lemma obs_fs w o : obs w = o -> w_fs w = o_fs o.
Proof. by intros <-. Qed.

Lemma obs_with_fs w : obs w = with_fs (w_fs w) (obs w).
Proof. done. Qed.

Section Copying.

Variable E : Env.

Lemma wp_and {A} (m : Py A) w (Q1 Q2 : Outcome A -> World -> Prop) :
  wp m w Q1 -> wp m w Q2 -> wp m w (fun o w' => Q1 o w' /\ Q2 o w').
Proof. by split. Qed.

Lemma wp_read_bytes p w Q :
  (forall data, stat (w_fs w) p = Some (File data) -> Q (Value data) w) ->
  (forall e, (forall data, stat (w_fs w) p <> Some (File data)) -> Q (Raised e) w) ->
  wp (read_bytes E p) w Q.
Proof.
  intros Hv He. unfold wp, read_bytes.
  destruct (stat (w_fs w) p) as [[data|]|] eqn:Hs; simpl; [by apply Hv| |];
    apply He; congruence.
Qed.

Lemma wp_write_bytes p data w Q :
  (forall w', obs w' = with_fs (<[p := File data]> (w_fs w)) (obs w) ->
              Q (Value tt) w') ->
  (forall e w', obs w' = obs w -> Q (Raised e) w') ->
  wp (write_bytes E p data) w Q.
Proof.
  intros Hv He. unfold write_bytes, wp at 1.
  change (wp (lift_fs E (at_path p (os_write p data (w_fs w)))) w Q).
  destruct (os_write_spec p data (w_fs w)) as [->|[c ->]];
    apply wp_lift_fs; simpl; intros; simplify_eq; eauto.
Qed.

(** The loop writes nothing but [dst / f] for the names [f] of the list,
    prints nothing and calls no library. *)
Lemma copy_sidecars_frame files src dst w :
  wp (copy_sidecars E files src dst) w (fun o w' =>
    (forall c, o <> Exited c) /\
    obs w' = with_fs (w_fs w') (obs w) /\
    forall p, (forall f, f ∈ files -> p <> dst </> f) ->
              w_fs w' !! p = w_fs w !! p).
Proof.
  revert w. induction files as [|f files IH]; intros w.
  - apply wp_ret. done.
  - unfold copy_sidecars. cbn [for_each]. fold (copy_sidecars E files src dst).
    wp_seq. wp_seq. apply wp_path_exists. wp_beta.
    destruct (exists_ (w_fs w) (src </> f)).
    + wp_seq. apply wp_read_bytes; [intros data Hd|intros e _].
      2: { wp_beta. split; [done|]. split; [done|]. done. }
      wp_beta. apply wp_write_bytes; [intros w1 H1|intros e w1 H1].
      2: { split; [done|].
           rewrite (obs_with_fs w1), H1. rewrite (obs_fs _ _ H1). done. }
      eapply wp_mono; [apply IH|]. simpl.
      intros o w' (Hex & Hobs & Hfr). split; [done|]. split.
      * rewrite Hobs, H1. done.
      * intros p Hp. rewrite Hfr by (intros g Hg; apply Hp; by right).
        rewrite (obs_fs _ _ H1). simpl.
        apply lookup_insert_ne. intros <-. by eapply Hp; [left|].
    + apply wp_ret. eapply wp_mono; [apply IH|]. simpl.
      intros o w' (Hex & Hobs & Hfr). split; [done|]. split; [done|].
      intros p Hp. apply Hfr. intros g Hg. apply Hp. by right.
Qed.

(** When the loop ends normally, every name of the list that exists in
    the source is a file there and has been copied; a name that does not
    exist is skipped; the source is as it was. *)
Lemma copy_sidecars_done files src dst w :
  NoDup files ->
  wp (copy_sidecars E files src dst) w (fun o w' =>
    o = Value tt ->
    forall f, f ∈ files ->
      w_fs w' !! (src </> f) = w_fs w !! (src </> f) /\
      match w_fs w !! (src </> f) with
      | Some n => exists data, n = File data /\
                               w_fs w' !! (dst </> f) = Some (File data)
      | None => w_fs w' !! (dst </> f) = w_fs w !! (dst </> f)
      end).
Proof.
  revert w. induction files as [|f files IH]; intros w Hnd.
  - apply wp_ret. intros _ g Hg. by apply elem_of_nil in Hg.
  - apply NoDup_cons in Hnd as [Hf Hnd].
    unfold copy_sidecars. cbn [for_each]. fold (copy_sidecars E files src dst).
    assert (Hrest : forall (d1 d2 : Path) g, g ∈ files -> d1 </> f <> d2 </> g).
    { intros d1 d2 g Hg. apply child_name_ne. by intros ->. }
    wp_seq. wp_seq. apply wp_path_exists. wp_beta.
    unfold exists_. rewrite stat_child.
    destruct (w_fs w !! (src </> f)) as [n|] eqn:Hsrc.
    + rewrite bool_decide_eq_true_2 by eauto.
      wp_seq. apply wp_read_bytes; [intros data Hd|intros e _; by wp_beta].
      rewrite stat_child, Hsrc in Hd. injection Hd as ->.
      wp_beta. apply wp_write_bytes; [intros w1 H1|by intros e w1 H1].
      apply obs_fs in H1. simpl in H1.
      eapply wp_mono; [apply wp_and; [apply (IH w1 Hnd)|apply copy_sidecars_frame]|].
      simpl. intros o w' (Hdone & _ & _ & Hfr) -> g Hg.
      specialize (Hdone eq_refl).
      assert (Hw1 : forall p, p <> dst </> f -> w_fs w1 !! p = w_fs w !! p).
      { intros p Hp. rewrite H1. by apply lookup_insert_ne. }
      apply elem_of_cons in Hg as [->|Hg].
      * rewrite Hsrc.
        assert (Hd' : w_fs w' !! (dst </> f) = Some (File data)).
        { rewrite Hfr by (intros g Hg; by apply Hrest).
          rewrite H1. apply lookup_insert_eq. }
        split; [|eauto].
        destruct (decide (src </> f = dst </> f)) as [Heq|Hne].
        -- rewrite Heq. done.
        -- rewrite Hfr by (intros g Hg; by apply Hrest). by rewrite Hw1.
      * destruct (Hdone g Hg) as [Hs Hm].
        assert (Hsg : w_fs w1 !! (src </> g) = w_fs w !! (src </> g)).
        { apply Hw1. apply not_eq_sym. by apply Hrest. }
        rewrite Hsg in Hs, Hm. split; [done|].
        destruct (w_fs w !! (src </> g)); [done|].
        rewrite Hm. apply Hw1. apply not_eq_sym. by apply Hrest.
    + rewrite bool_decide_eq_false_2 by (by intros [? ?]).
      apply wp_ret.
      eapply wp_mono; [apply wp_and; [apply (IH w Hnd)|apply copy_sidecars_frame]|].
      simpl. intros o w' (Hdone & _ & _ & Hfr) -> g Hg.
      specialize (Hdone eq_refl).
      apply elem_of_cons in Hg as [->|Hg]; [|by apply Hdone].
      rewrite Hsrc. rewrite <- Hsrc at 1.
      split; apply Hfr; intros g Hg; by apply Hrest.
Qed.

End Copying.

(** ** The records a stage body prints *)

Ltac obs_chain :=
  repeat match goal with
         | H : obs ?w = _ |- context [obs ?w] => rewrite H
         end;
  cbn [o_out o_fs o_calls with_out with_fs with_call].

Ltac wp_print_step :=
  wp_seq; apply wp_print; intros ?w ?Hw.

Ltac wp_call_step :=
  wp_seq; apply wp_call;
  [intros ?v ?fs ?w ?Hlib ?Hw|intros ?e ?fs ?w ?Hlib ?Hw].

Ltac wp_mkdir_step :=
  wp_seq; apply wp_mkdir;
  [intros ?fs ?w ?Hmk ?Hw|intros ?c ?q ?fs ?w ?Hmk ?Hw].

Ltac fold_obs :=
  repeat match goal with
         | |- context [emitted (w_trace ?w)] =>
             change (emitted (w_trace w)) with (o_out (obs w))
         | |- context [calls (w_trace ?w)] =>
             change (calls (w_trace w)) with (o_calls (obs w))
         | |- context [w_fs ?w] =>
             change (w_fs w) with (o_fs (obs w))
         end.

Ltac raised_after k :=
  wp_beta; exists k; fold_obs; obs_chain; simpl;
  by rewrite <- ?app_assoc, ?app_nil_r.

Section Protocol.

Variable E : Env.

Lemma body_protocol s argv body w :
  stage_body E s argv = Some body ->
  wp body w (fun o w' =>
    match o with
    | Value _ =>
        exists final, success_record s argv final /\
          o_out (obs w') =
            o_out (obs w) ++ map status_record (progress_of s) ++ [final]
    | Raised _ =>
        exists k, o_out (obs w') =
                    o_out (obs w) ++ map status_record (take k (progress_of s))
    | Exited _ => False
    end).
Proof.
  intros Hb. destruct s; simpl in Hb; simplify_option_eq.
  - unfold download_body.
    wp_print_step. wp_call_step; [|raised_after 1%nat].
    wp_print_step. wp_call_step; [|raised_after 2%nat].
    wp_mkdir_step; [|raised_after 2%nat].
    wp_print_step. wp_call_step; [|raised_after 3%nat].
    wp_print_step. wp_call_step; [|raised_after 4%nat].
    wp_beta. apply wp_print. intros w9 Hw9.
    eexists. split; [eexists; split; reflexivity|].
    fold_obs. obs_chain. simpl. by rewrite <- !app_assoc.
  - unfold convert_body.
    wp_mkdir_step; [|raised_after 0%nat].
    wp_print_step. wp_call_step; [|raised_after 1%nat].
    wp_beta. apply wp_print. intros w9 Hw9.
    eexists. split; [eexists; split; reflexivity|].
    fold_obs. obs_chain. simpl. by rewrite <- !app_assoc.
  - unfold optimize_body.
    wp_print_step. wp_print_step.
    wp_call_step; [|raised_after 2%nat].
    wp_call_step; [|raised_after 2%nat].
    wp_print_step.
    wp_mkdir_step; [|raised_after 3%nat].
    wp_call_step; [|raised_after 3%nat].
    wp_seq. eapply wp_mono; [apply copy_sidecars_frame|]. simpl.
    intros o w' (Hex & Hw' & _). destruct o as [[]|e|c]; [| |by destruct (Hex c)].
    2: { raised_after 3%nat. }
    apply wp_print. intros w9 Hw9.
    eexists. split; [eexists; split; reflexivity|].
    fold_obs. obs_chain. simpl. by rewrite <- !app_assoc.
  - unfold quantize_body.
    wp_print_step. wp_seq. apply wp_path_exists. wp_seq.
    destruct (exists_ _ _); [apply wp_ret|apply wp_raise; raised_after 1%nat].
    wp_mkdir_step; [|raised_after 1%nat].
    wp_print_step. wp_call_step; [|raised_after 2%nat].
    wp_seq. eapply wp_mono; [apply copy_sidecars_frame|]. simpl.
    intros o w' (Hex & Hw' & _). destruct o as [[]|e|c]; [| |by destruct (Hex c)].
    2: { raised_after 2%nat. }
    apply wp_print. intros w9 Hw9.
    eexists. split; [eexists; split; reflexivity|].
    fold_obs. obs_chain. simpl. by rewrite <- !app_assoc.
  - unfold verify_body.
    wp_print_step. wp_call_step; [|raised_after 1%nat].
    wp_print_step. wp_call_step; [|raised_after 2%nat].
    wp_print_step. wp_call_step; [|raised_after 3%nat].
    wp_print_step. wp_call_step; [|raised_after 4%nat].
    wp_seq. apply wp_lift_res; [intros t1 Ht1|intros; raised_after 4%nat].
    wp_seq. apply wp_lift_res; [intros shape Hsh|intros; raised_after 4%nat].
    wp_seq. apply wp_lift_res; [intros t2 Ht2|intros; raised_after 4%nat].
    wp_seq. apply wp_lift_res; [intros mean Hmean|intros; raised_after 4%nat].
    wp_seq. apply wp_lift_res; [intros t3 Ht3|intros; raised_after 4%nat].
    wp_seq. apply wp_lift_res; [intros std Hstd|intros; raised_after 4%nat].
    wp_beta. apply wp_print. intros w9 Hw9.
    eexists. split; [by eexists _, _, _|].
    fold_obs. obs_chain. simpl. by rewrite <- !app_assoc.
Qed.

End Protocol.

(** ** How a run ends *)

Lemma run_wp E s argv fs0 (P : Final -> Prop) :
  wp (script E s argv) (initial fs0) (fun o w' => P (finish (o, w'))) ->
  P (run E s argv fs0).
Proof.
  unfold wp, run. by destruct (script E s argv (initial fs0)).
Qed.

Lemma wp_self {A} (m : Py A) w : wp m w (fun o w' => m w = (o, w')).
Proof. unfold wp. by destruct (m w). Qed.

Lemma run_cases E s argv fs0 : RunCase E s argv fs0 (run E s argv fs0).
Proof.
  apply run_wp. apply wp_script.
  - intros Hu e. apply crashed; [by left|done|apply observed_finish].
  - intros Hu Hg w' Hw'. apply refused; try done.
    by rewrite observed_finish.
  - intros Hu Hg Hb e. apply crashed; [|done|apply observed_finish].
    right. unfold imports_ok. by rewrite Hu, Hg.
  - intros Hu Hg body Hb.
    assert (Hi : imports_ok E s = true) by (unfold imports_ok; by rewrite Hu, Hg).
    apply wp_stage_boundary.
    eapply wp_mono;
      [apply wp_and;
       [apply (body_protocol E s argv body _ Hb)
       |apply wp_self]|].
    simpl. intros o w' [Hp Hrun].
    destruct o as [[]|e|c]; [| |done].
    + destruct Hp as (final & Hfin & Hout).
      eapply completed; try done. apply observed_finish.
    + destruct Hp as (k & Hout). intros w'' Hw''.
      eapply failed; try done. by rewrite observed_finish.
Qed.

(** ** Exactly one terminal record (C1) *)

Lemma progress_nonterminal s k :
  Forall (fun r => is_terminal r = false)
         (map status_record (take k (progress_of s))).
Proof.
  apply Forall_forall. intros r Hr.
  apply list_elem_of_In, in_map_iff in Hr as (tag & <- & Htag).
  assert (Hall : Forall (fun t => is_terminal (status_record t) = false)
                        (progress_of s))
    by (destruct s; repeat constructor).
  rewrite Forall_forall in Hall. apply Hall.
  apply list_elem_of_In in Htag. by eapply subseteq_take.
Qed.

Lemma success_is_complete s argv r :
  success_record s argv r -> is_complete r = true /\ is_error r = false.
Proof.
  destruct s; simpl.
  1-4: by intros (d & _ & ->).
  by intros (shape & mean & std & ->).
Qed.

Lemma args_ok_body E s argv :
  args_ok E s argv = true -> is_Some (stage_body E s argv).
Proof.
  intros H.
  assert (Hlen : (3 <= length argv)%nat ->
                 exists a1 a2, argv !! 1%nat = Some a1 /\ argv !! 2%nat = Some a2).
  { intros Hl.
    destruct (lookup_lt_is_Some_2 argv 1%nat) as [a1 H1]; [lia|].
    destruct (lookup_lt_is_Some_2 argv 2%nat) as [a2 H2]; [lia|]. eauto. }
  destruct s; simpl in *.
  1,2,4,5: apply bool_decide_eq_true in H;
           destruct (Hlen H) as (a1 & a2 & -> & ->); by eexists.
  destruct (argv !! 3%nat) as [a3|] eqn:H3; [|done].
  destruct (argv !! 4%nat) as [a4|] eqn:H4; [|done].
  apply andb_true_iff in H as [Hz3 Hz4].
  apply bool_decide_eq_true in Hz3 as [z3 Hz3], Hz4 as [z4 Hz4].
  destruct Hlen as (a1 & a2 & -> & ->);
    [apply lookup_lt_Some in H3; lia|].
  simpl. rewrite Hz3. simpl. rewrite Hz4. by eexists.
Qed.

(** C1, as the code has it: when the imports a stage makes before its guard
    succeed and the positional arguments are there (for Optimize, with a
    head count and a hidden size that [int] accepts), the records printed by
    the run are progress records followed by exactly one terminal record,
    and the exit status is zero exactly when that record is the success
    record. *)
Theorem one_terminal_record_last E s argv fs0 :
  forallb (importable E) (unguarded_modules s) = true ->
  args_ok E s argv = true ->
  let f := run E s argv fs0 in
  exists progress t,
    emitted (final_trace f) = progress ++ [t] /\
    Forall (fun r => is_terminal r = false) progress /\
    is_terminal t = true /\
    (exit_status f = 0%Z <-> is_complete t = true).
Proof.
  intros Hu Hargs f.
  change (emitted (final_trace f)) with (o_out (observed f)). subst f.
  destruct (run_cases E s argv fs0) as
    [Hc _ _|_ _ Hx Ho|body e w' k _ _ _ Hout Hx Ho|body w' final _ _ _ Hfin Hout Hx Ho].
  - destruct Hc as [Hc|[_ Hc]]; [congruence|].
    apply args_ok_body in Hargs as [? ?]. congruence.
  - exists [], (error_record (guard_message s)).
    rewrite Ho, Hx. simpl. repeat split; (done || by constructor).
  - exists (map status_record (take k (progress_of s))), (error_record (exn_text e)).
    rewrite Ho, Hx. cbn [o_out with_out]. rewrite Hout.
    repeat split; try done. apply progress_nonterminal.
  - exists (map status_record (progress_of s)), final.
    rewrite Ho, Hx, Hout. destruct (success_is_complete _ _ _ Hfin) as [Hc He].
    repeat split; try done.
    + rewrite <- (firstn_all (progress_of s)). apply progress_nonterminal.
    + unfold is_terminal. by rewrite Hc.
Qed.

Lemma one_terminal_record_last_witness :
  forallb (importable Sample.env) (unguarded_modules Verify) = true /\
  args_ok Sample.env Verify ["verify.py"; "/q/model_quantized.onnx"; "/q"] = true /\
  let f := run Sample.env Verify ["verify.py"; "/q/model_quantized.onnx"; "/q"] ∅ in
  exists progress t,
    emitted (final_trace f) = progress ++ [t] /\
    Forall (fun r => is_terminal r = false) progress /\
    is_terminal t = true /\
    (exit_status f = 0%Z <-> is_complete t = true).
Proof.
  split; [reflexivity|]. split; [reflexivity|].
  apply (one_terminal_record_last Sample.env Verify
           ["verify.py"; "/q/model_quantized.onnx"; "/q"] ∅); reflexivity.
Defined.

(** C1 as stated fails: started without its positional arguments, a stage
    ends on an [IndexError] outside its [try] block and prints no record at
    all. *)
Lemma download_without_arguments_prints_nothing :
  let f := run Sample.env Download ["download.py"] ∅ in
  emitted (final_trace f) = [] /\ exit_status f = 1%Z.
Proof. split; reflexivity. Qed.

(** ** The records of a successful run (C7) *)

(** C7, as the code has it: a run that exits with status zero has printed
    the status records of its stage in their fixed order, followed by the
    success record.  For Download that record carries the cache directory as
    pathlib spells it, [str(Path(d))]; for Optimize it carries the output
    path as it was given. *)
Theorem successful_run_records E s argv fs0 :
  exit_status (run E s argv fs0) = 0%Z ->
  exists final,
    success_record s argv final /\
    emitted (final_trace (run E s argv fs0)) =
      map status_record (progress_of s) ++ [final].
Proof.
  intros Hx.
  change (emitted (final_trace (run E s argv fs0)))
    with (o_out (observed (run E s argv fs0))).
  destruct (run_cases E s argv fs0) as
    [_ Hx' _|_ _ Hx' _|body e w' k _ _ _ _ Hx' _|body w' final _ _ _ Hfin Hout _ Ho];
    [congruence..|].
  exists final. by rewrite Ho, Hout.
Qed.

Lemma successful_run_records_witness :
  exit_status (run Sample.env Download ["download.py"; "example/mini-model"; "/tmp/c"] ∅) = 0%Z /\
  exists final,
    success_record Download ["download.py"; "example/mini-model"; "/tmp/c"] final /\
    emitted (final_trace (run Sample.env Download
                            ["download.py"; "example/mini-model"; "/tmp/c"] ∅)) =
      map status_record (progress_of Download) ++ [final].
Proof.
  split; [reflexivity|].
  apply (successful_run_records Sample.env Download
           ["download.py"; "example/mini-model"; "/tmp/c"] ∅).
  reflexivity.
Defined.

(** C7 as stated fails for Download: the record does not repeat the
    argument, it prints the parsed path, which has lost a trailing slash. *)
Lemma download_reports_normalised_cache_dir :
  let f := run Sample.env Download ["download.py"; "example/mini-model"; "/tmp/c/"] ∅ in
  exit_status f = 0%Z /\
  last (emitted (final_trace f)) =
    Some [("status", JStr "complete"); ("cache_dir", JStr "/tmp/c")] /\
  last (emitted (final_trace f)) <>
    Some [("status", JStr "complete"); ("cache_dir", JStr "/tmp/c/")].
Proof. split; [reflexivity|]. split; [reflexivity|]. discriminate. Qed.

(** ** Exceptions at the stage boundary (C5) *)

(** C5: when the [try] block of a stage raises [e], the run prints what the
    block had printed, then the error record with the text of [e], and ends
    with status 1; the filesystem is the one the exception left behind. *)
Theorem exception_reported_at_boundary E s argv fs0 body e :
  imports_ok E s = true ->
  stage_body E s argv = Some body ->
  (body (initial fs0)).1 = Raised e ->
  let f := run E s argv fs0 in
  let w' := (body (initial fs0)).2 in
  emitted (final_trace f) =
    emitted (w_trace w') ++ [error_record (exn_text e)] /\
  exit_status f = 1%Z /\
  final_fs f = w_fs w'.
Proof.
  intros Hi Hb He f w'. subst f w'.
  change (emitted (final_trace (run E s argv fs0)))
    with (o_out (observed (run E s argv fs0))).
  change (final_fs (run E s argv fs0))
    with (o_fs (observed (run E s argv fs0))).
  unfold imports_ok in Hi. apply andb_true_iff in Hi as [Hu Hg].
  destruct (run_cases E s argv fs0) as
    [Hc _ _|_ Hg' _ _|body' e' w' k _ Hb' Hrun _ Hx Ho|body' w' final _ Hb' Hrun _ _ _ _].
  - destruct Hc as [Hc|[_ Hc]]; congruence.
  - congruence.
  - assert (body' = body) as -> by congruence.
    rewrite Hrun in He |- *. simpl in He. injection He as ->.
    rewrite Ho. done.
  - assert (body' = body) as -> by congruence.
    by rewrite Hrun in He.
Qed.

Lemma exception_reported_at_boundary_witness :
  let E := Sample.env_disk_full in
  let argv := ["download.py"; "example/mini-model"; "/tmp/c"] in
  let body := download_body E "example/mini-model" "/tmp/c" in
  let e := Sample.failed "No space left on device" in
  imports_ok E Download = true /\
  stage_body E Download argv = Some body /\
  (body (initial ∅)).1 = Raised e /\
  (emitted (final_trace (run E Download argv ∅)) =
     emitted (w_trace (body (initial ∅)).2) ++ [error_record (exn_text e)] /\
   exit_status (run E Download argv ∅) = 1%Z /\
   final_fs (run E Download argv ∅) = w_fs (body (initial ∅)).2).
Proof.
  intros E argv body e.
  split; [reflexivity|]. split; [reflexivity|]. split; [reflexivity|].
  apply (exception_reported_at_boundary E Download argv ∅ body e); reflexivity.
Defined.

(** The files written before the exception are still there. *)
Example disk_full_leaves_partial_files :
  let f := run Sample.env_disk_full Download
               ["download.py"; "example/mini-model"; "/tmp/c"] ∅ in
  last (emitted (final_trace f)) = Some (error_record "No space left on device") /\
  final_fs f !! (PurePath.of_string "/tmp/c/model.safetensors") = Some (File "weights") /\
  final_fs f !! (PurePath.of_string "/tmp/c/tokenizer.json") = Some (File "to").
Proof. repeat split; reflexivity. Qed.

(** ** The import guard (C3) *)

(** Under the guard: a stage whose guarded imports fail prints the one
    error record of its guard, exits with 1, and has touched neither the
    filesystem nor a library, whatever its arguments. *)
Lemma guard_refuses E s argv fs0 :
  forallb (importable E) (unguarded_modules s) = true ->
  forallb (importable E) (guarded_modules s) = false ->
  let f := run E s argv fs0 in
  emitted (final_trace f) = [error_record (guard_message s)] /\
  exit_status f = 1%Z /\
  final_fs f = fs0 /\
  calls (final_trace f) = [].
Proof.
  intros Hu Hg f. subst f.
  change (emitted (final_trace (run E s argv fs0)))
    with (o_out (observed (run E s argv fs0))).
  change (final_fs (run E s argv fs0))
    with (o_fs (observed (run E s argv fs0))).
  change (calls (final_trace (run E s argv fs0)))
    with (o_calls (observed (run E s argv fs0))).
  destruct (run_cases E s argv fs0) as
    [Hc _ _|_ _ Hx Ho|? ? ? ? Hi _ _ _ _ _|? ? ? Hi _ _ _ _ _ _].
  - destruct Hc as [Hc|[Hi _]]; [congruence|].
    unfold imports_ok in Hi. rewrite Hu, Hg in Hi. done.
  - by rewrite Ho, Hx.
  - unfold imports_ok in Hi. rewrite Hu, Hg in Hi. done.
  - unfold imports_ok in Hi. rewrite Hu, Hg in Hi. done.
Qed.

(** C3 fails for Verify: [import numpy] stands before the guard.  Without
    numpy the script ends on the [ImportError] itself and prints no record,
    whether or not the guarded libraries are installed. *)
Theorem verify_without_numpy_prints_nothing E argv fs0 :
  importable E "numpy" = false ->
  let f := run E Verify argv fs0 in
  emitted (final_trace f) = [] /\ exit_status f = 1%Z /\ final_fs f = fs0.
Proof.
  intros Hn f. subst f.
  change (emitted (final_trace (run E Verify argv fs0)))
    with (o_out (observed (run E Verify argv fs0))).
  change (final_fs (run E Verify argv fs0))
    with (o_fs (observed (run E Verify argv fs0))).
  assert (Hu : forallb (importable E) (unguarded_modules Verify) = false)
    by (simpl; by rewrite Hn).
  destruct (run_cases E Verify argv fs0) as
    [_ Hx Ho|Hu' _ _ _|? ? ? ? Hi _ _ _ _ _|? ? ? Hi _ _ _ _ _ _].
  - by rewrite Ho, Hx.
  - congruence.
  - unfold imports_ok in Hi. by rewrite Hu in Hi.
  - unfold imports_ok in Hi. by rewrite Hu in Hi.
Qed.

Lemma verify_without_numpy_prints_nothing_witness :
  importable Sample.env_bare "numpy" = false /\
  let f := run Sample.env_bare Verify ["verify.py"; "/q/model_quantized.onnx"; "/q"] ∅ in
  emitted (final_trace f) = [] /\ exit_status f = 1%Z /\ final_fs f = ∅.
Proof.
  split; [reflexivity|].
  apply (verify_without_numpy_prints_nothing Sample.env_bare
           ["verify.py"; "/q/model_quantized.onnx"; "/q"] ∅).
  reflexivity.
Defined.

(** ** Quantize without its model (C2) *)

(** C2: when the input directory of Quantize has no entry [model.onnx], the
    run ends with an error record as its last record and a nonzero status;
    it has called no library and the filesystem is as it was, so no
    [model_quantized.onnx] has appeared in the output directory. *)
Theorem quantize_without_model E a0 model_dir output_dir rest fs0 :
  fs0 !! (PurePath.of_string model_dir </> "model.onnx") = None ->
  let f := run E Quantize (a0 :: model_dir :: output_dir :: rest) fs0 in
  (exists progress msg,
      emitted (final_trace f) = progress ++ [error_record msg]) /\
  exit_status f <> 0%Z /\
  calls (final_trace f) = [] /\
  final_fs f = fs0 /\
  final_fs f !! (PurePath.of_string output_dir </> "model_quantized.onnx") =
    fs0 !! (PurePath.of_string output_dir </> "model_quantized.onnx").
Proof.
  intros Hm f.
  assert (Hmain :
    (exists progress msg,
        o_out (observed f) = progress ++ [error_record msg]) /\
    exit_status f <> 0%Z /\ o_calls (observed f) = [] /\ o_fs (observed f) = fs0).
  { subst f. apply run_wp. apply wp_script.
    - done.
    - intros _ _ w' Hw'. rewrite observed_finish. cbn [snd]. rewrite Hw'. simpl.
      split; [by exists [], (guard_message Quantize)|done].
    - done.
    - intros _ _ body Hb. simpl in Hb. injection Hb as <-.
      apply wp_stage_boundary. unfold quantize_body.
      wp_print_step. wp_seq. apply wp_path_exists. wp_seq.
      unfold exists_. rewrite stat_child.
      rewrite (obs_fs _ _ Hw). cbn [o_fs with_out obs initial w_fs].
      rewrite Hm. rewrite bool_decide_eq_false_2 by (by intros [? ?]).
      apply wp_raise. intros w1 Hw1.
      rewrite observed_finish. cbn [snd]. rewrite Hw1, Hw. simpl.
      split; [|done]. by eexists [_], _. }
  destruct Hmain as (Hout & Hx & Hc & Hfs). repeat split; try done.
  change (final_fs f) with (o_fs (observed f)). by rewrite Hfs.
Qed.

Lemma quantize_without_model_witness :
  (∅ : FS) !! (PurePath.of_string "/tmp/missing_dir" </> "model.onnx") = None /\
  let f := run Sample.env Quantize ["quantize.py"; "/tmp/missing_dir"; "/tmp/q"] ∅ in
  (exists progress msg,
      emitted (final_trace f) = progress ++ [error_record msg]) /\
  exit_status f <> 0%Z /\
  calls (final_trace f) = [] /\
  final_fs f = ∅ /\
  final_fs f !! (PurePath.of_string "/tmp/q" </> "model_quantized.onnx") =
    (∅ : FS) !! (PurePath.of_string "/tmp/q" </> "model_quantized.onnx").
Proof.
  split; [reflexivity|].
  apply (quantize_without_model Sample.env "quantize.py" "/tmp/missing_dir"
           "/tmp/q" [] ∅).
  reflexivity.
Defined.

Example scenario_c :
  let f := run Sample.env Quantize ["quantize.py"; "/tmp/missing_dir"; "/tmp/q"] ∅ in
  emitted (final_trace f) =
    [status_record "loading_model";
     error_record "Model not found: /tmp/missing_dir/model.onnx"] /\
  exit_status f = 1%Z.
Proof. split; reflexivity. Qed.

(** ** The probe text of Verify (C10) *)

Lemma verify_body_calls E model_path tokenizer_path text w :
  wp (verify_body E model_path tokenizer_path text) w (fun o w' =>
    o = Value tt ->
    exists session tokenizer inputs,
      o_calls (obs w') =
        o_calls (obs w) ++
        [InferenceSession model_path;
         AutoTokenizer_from_pretrained tokenizer_path;
         tokenizer_call tokenizer text "np" true true;
         session_run session inputs]).
Proof.
  unfold verify_body.
  wp_print_step. wp_call_step; [|done].
  wp_print_step. wp_call_step; [|done].
  wp_print_step. wp_call_step; [|done].
  wp_print_step. wp_call_step; [|done].
  wp_seq. apply wp_lift_res; [intros t1 Ht1|done].
  wp_seq. apply wp_lift_res; [intros shape Hsh|done].
  wp_seq. apply wp_lift_res; [intros t2 Ht2|done].
  wp_seq. apply wp_lift_res; [intros mean Hmean|done].
  wp_seq. apply wp_lift_res; [intros t3 Ht3|done].
  wp_seq. apply wp_lift_res; [intros std Hstd|done].
  wp_beta. apply wp_print. intros w9 Hw9 _.
  exists v, v0, v1. obs_chain. by rewrite <- !app_assoc.
Qed.

Ltac probe_calls :=
  wp_beta; intros ?c ?Hc; revert Hc; fold_obs; obs_chain;
  rewrite ?elem_of_app, ?list_elem_of_singleton;
  intros Hc; destruct_or! Hc; subst;
  first [by left | right; intros ? ? ? ? ? ?; by simplify_eq].

(** Whatever happens in the body, a call of the tokenizer on a text is a
    call on the probe text. *)
Lemma verify_body_probe E model_path tokenizer_path text w :
  wp (verify_body E model_path tokenizer_path text) w (fun o w' =>
    forall c, c ∈ o_calls (obs w') ->
      c ∈ o_calls (obs w) \/
      forall tok t rt pad trunc, c = tokenizer_call tok t rt pad trunc -> t = text).
Proof.
  unfold verify_body.
  wp_print_step. wp_call_step; [|probe_calls].
  wp_print_step. wp_call_step; [|probe_calls].
  wp_print_step. wp_call_step; [|probe_calls].
  wp_print_step. wp_call_step; [|probe_calls].
  wp_seq. apply wp_lift_res; [intros t1 Ht1|intros ? ?; probe_calls].
  wp_seq. apply wp_lift_res; [intros shape Hsh|intros ? ?; probe_calls].
  wp_seq. apply wp_lift_res; [intros t2 Ht2|intros ? ?; probe_calls].
  wp_seq. apply wp_lift_res; [intros mean Hmean|intros ? ?; probe_calls].
  wp_seq. apply wp_lift_res; [intros t3 Ht3|intros ? ?; probe_calls].
  wp_seq. apply wp_lift_res; [intros std Hstd|intros ? ?; probe_calls].
  wp_beta. apply wp_print. intros w9 Hw9. probe_calls.
Qed.

(** A body that ends normally reports what it read off the first output of
    the inference it ran. *)
Lemma verify_body_report E model_path tokenizer_path text w :
  wp (verify_body E model_path tokenizer_path text) w (fun o w' =>
    o = Value tt ->
    exists session tokenizer inputs outputs t shape mean std fs_before,
      o_calls (obs w') =
        o_calls (obs w) ++
        [InferenceSession model_path;
         AutoTokenizer_from_pretrained tokenizer_path;
         tokenizer_call tokenizer text "np" true true;
         session_run session inputs] /\
      lib E (session_run session inputs) fs_before = (Ok outputs, o_fs (obs w')) /\
      item0 E outputs = Ok t /\
      shape_of E t = Ok shape /\
      float_mean E t = Ok mean /\
      float_std E t = Ok std /\
      o_out (obs w') =
        o_out (obs w) ++
        [status_record "loading_session"; status_record "loading_tokenizer";
         status_record "tokenizing"; status_record "running_inference";
         [("status", JStr "complete");
          ("test_text", JStr text);
          ("output_shape", JInts shape);
          ("output_mean", JFloat mean);
          ("output_std", JFloat std)]]).
Proof.
  unfold verify_body.
  wp_print_step. wp_call_step; [|done].
  wp_print_step. wp_call_step; [|done].
  wp_print_step. wp_call_step; [|done].
  wp_print_step. wp_call_step; [|done].
  wp_seq. apply wp_lift_res; [intros t1 Ht1|done].
  wp_seq. apply wp_lift_res; [intros shape Hsh|done].
  wp_seq. apply wp_lift_res; [intros t2 Ht2|done].
  wp_seq. apply wp_lift_res; [intros mean Hmean|done].
  wp_seq. apply wp_lift_res; [intros t3 Ht3|done].
  wp_seq. apply wp_lift_res; [intros std Hstd|done].
  wp_beta. apply wp_print. intros w9 Hw9 _.
  assert (t2 = t1) as -> by congruence.
  assert (t3 = t1) as -> by congruence.
  exists v, v0, v1, v2, t1, shape, mean, std, (w_fs w6).
  split; [obs_chain; by rewrite <- !app_assoc|].
  split; [obs_chain; exact Hlib2|].
  repeat (split; [done|]).
  obs_chain. by rewrite <- !app_assoc.
Qed.

(** C10: the text Verify hands to the tokenizer is its fourth argument when
    there is one and "This is a test" when there is none; in a successful
    run the tokenizer has been called on that text, and the last record is
    the success record with that text under [test_text], followed by
    [output_shape], [output_mean] and [output_std]: the shape, the mean and
    the standard deviation of the first output of the inference, the last
    library call of the run. *)
Theorem verify_echoes_probe_text E argv fs0 :
  let f := run E Verify argv fs0 in
  let text := default default_test_text (argv !! 3%nat) in
  ((length argv <= 3)%nat -> text = "This is a test") /\
  (forall t, argv !! 3%nat = Some t -> text = t) /\
  (forall tok t rt pad trunc,
      tokenizer_call tok t rt pad trunc ∈ calls (final_trace f) -> t = text) /\
  (exit_status f = 0%Z ->
   exists tokenizer session inputs outputs t shape mean std fs_before,
     tokenizer_call tokenizer text "np" true true ∈ calls (final_trace f) /\
     last (calls (final_trace f)) = Some (session_run session inputs) /\
     lib E (session_run session inputs) fs_before = (Ok outputs, final_fs f) /\
     item0 E outputs = Ok t /\
     shape_of E t = Ok shape /\
     float_mean E t = Ok mean /\
     float_std E t = Ok std /\
     last (emitted (final_trace f)) =
       Some [("status", JStr "complete");
             ("test_text", JStr text);
             ("output_shape", JInts shape);
             ("output_mean", JFloat mean);
             ("output_std", JFloat std)]).
Proof.
  intros f text. subst f text.
  split; [intros Hl; by rewrite (proj2 (lookup_ge_None argv 3%nat)) by lia|].
  split; [by intros t ->|].
  change (emitted (final_trace (run E Verify argv fs0)))
    with (o_out (observed (run E Verify argv fs0))).
  change (calls (final_trace (run E Verify argv fs0)))
    with (o_calls (observed (run E Verify argv fs0))).
  change (final_fs (run E Verify argv fs0))
    with (o_fs (observed (run E Verify argv fs0))).
  assert (Hbody : forall body, stage_body E Verify argv = Some body ->
            exists m t, body = verify_body E m t (default default_test_text (argv !! 3%nat))).
  { intros body Hb. simpl in Hb.
    destruct (argv !! 1%nat) as [m|]; [|done].
    destruct (argv !! 2%nat) as [t|]; [|done].
    simpl in Hb. injection Hb as <-. eauto. }
  assert (Hprobe : forall body o w', stage_body E Verify argv = Some body ->
            body (initial fs0) = (o, w') ->
            forall tok t rt pad trunc,
              tokenizer_call tok t rt pad trunc ∈ o_calls (obs w') ->
              t = default default_test_text (argv !! 3%nat)).
  { intros body o w' Hb Hrun tok t rt pad trunc Hin.
    destruct (Hbody body Hb) as (m & tp & ->).
    pose proof (verify_body_probe E m tp (default default_test_text (argv !! 3%nat))
                  (initial fs0)) as Hp.
    unfold wp in Hp. rewrite Hrun in Hp. cbn [fst snd] in Hp.
    destruct (Hp _ Hin) as [Hnil|Heq]; [by apply elem_of_nil in Hnil|].
    by eapply Heq. }
  destruct (run_cases E Verify argv fs0) as
    [_ Hx Ho|_ _ Hx Ho|body e w' k _ Hb Hrun _ Hx Ho
    |body w' final _ Hb Hrun Hfin Hout Hx Ho]; rewrite Ho, Hx.
  - split; [|done]. intros tok t rt pad trunc Hin. by apply elem_of_nil in Hin.
  - split; [|done]. intros tok t rt pad trunc Hin. by apply elem_of_nil in Hin.
  - split; [|done]. cbn [o_calls with_out]. by eapply Hprobe.
  - split; [by eapply Hprobe|]. intros _.
    destruct (Hbody body Hb) as (m & tp & ->).
    pose proof (verify_body_report E m tp (default default_test_text (argv !! 3%nat))
                  (initial fs0)) as Hr.
    unfold wp in Hr. rewrite Hrun in Hr. cbn [fst snd] in Hr.
    destruct (Hr eq_refl) as (session & tokenizer & inputs & outputs & t & shape &
                              mean & std & fs_before & Hcalls & Hlib & Ht & Hsh &
                              Hmean & Hstd & Hrec).
    exists tokenizer, session, inputs, outputs, t, shape, mean, std, fs_before.
    rewrite Hcalls, Hrec. simpl.
    split; [apply list_elem_of_In; simpl; auto|].
    repeat (split; [done|]). done.
Qed.

Lemma verify_echoes_probe_text_witness :
  let argv := ["verify.py"; "/q/model_quantized.onnx"; "/q"] in
  let fs0 := Sample.disk [Sample.dir "/q"; Sample.file "/q/model_quantized.onnx" "quantized"] in
  let f := run Sample.env Verify argv fs0 in
  (length argv <= 3)%nat /\
  exit_status f = 0%Z /\
  default default_test_text (argv !! 3%nat) = "This is a test" /\
  exists tokenizer session inputs outputs t shape mean std fs_before,
    tokenizer_call tokenizer "This is a test" "np" true true ∈ calls (final_trace f) /\
    last (calls (final_trace f)) = Some (session_run session inputs) /\
    lib Sample.env (session_run session inputs) fs_before = (Ok outputs, final_fs f) /\
    item0 Sample.env outputs = Ok t /\
    shape_of Sample.env t = Ok shape /\
    float_mean Sample.env t = Ok mean /\
    float_std Sample.env t = Ok std /\
    last (emitted (final_trace f)) =
      Some [("status", JStr "complete");
            ("test_text", JStr "This is a test");
            ("output_shape", JInts shape);
            ("output_mean", JFloat mean);
            ("output_std", JFloat std)].
Proof.
  intros argv fs0 f.
  assert (Hlen : (length argv <= 3)%nat) by (simpl; lia).
  assert (Hx : exit_status f = 0%Z) by reflexivity.
  destruct (verify_echoes_probe_text Sample.env argv fs0) as (Hd & _ & _ & Hs).
  split; [exact Hlen|]. split; [exact Hx|]. split; [exact (Hd Hlen)|].
  exact (Hs Hx).
Defined.

(** ** Sidecar propagation (C4) *)

Lemma manifest_NoDup s : NoDup (stage_manifest s).
Proof. destruct s; by apply (bool_decide_unpack _). Qed.





Example quantize_copies_sidecars :
  let f := run Sample.env Quantize ["quantize.py"; "/opt"; "/q"]
             (Sample.disk [Sample.dir "/opt";
                           Sample.file "/opt/model.onnx" "optimized";
                           Sample.file "/opt/vocab.txt" "[PAD]";
                           Sample.file "/opt/notes.txt" "not a sidecar"]) in
  final_fs f !! PurePath.of_string "/q/vocab.txt" = Some (File "[PAD]") /\
  final_fs f !! PurePath.of_string "/q/config.json" = None /\
  final_fs f !! PurePath.of_string "/q/notes.txt" = None /\
  final_fs f !! PurePath.of_string "/q/model_quantized.onnx" = Some (File "quantized").
Proof. repeat split; reflexivity. Qed.


(** ** Invariants of the world *)

Section Keeping.

Variable E : Env.
Variable I : World -> Prop.

Lemma keeps_silent {A} (m : Py A) : silent m -> keeps I m.
Proof. intros Hm w Hw. by rewrite Hm. Qed.

Lemma keeps_bind {A B} (m : Py A) (k : A -> Py B) :
  keeps I m -> (forall a, keeps I (k a)) -> keeps I (m ≫= k).
Proof.
  intros Hm Hk w Hw. specialize (Hm w Hw).
  unfold mbind, Py_bind, bind.
  destruct (m w) as [[a|e|c] w']; simpl in *; [by apply Hk|done|done].
Qed.

Lemma keeps_try {A} (body : Py A) catches handler :
  keeps I body -> (forall e, keeps I (handler e)) ->
  keeps I (try_except body catches handler).
Proof.
  intros Hb Hh w Hw. specialize (Hb w Hw). unfold try_except.
  destruct (body w) as [[a|e|c] w']; simpl in *; [done| |done].
  destruct (catches (exn_class e)); [by apply Hh|done].
Qed.

Lemma keeps_if {A} (b : bool) (m1 m2 : Py A) :
  keeps I m1 -> keeps I m2 -> keeps I (if b then m1 else m2).
Proof. by destruct b. Qed.

Lemma keeps_for_each {A} (xs : list A) body :
  (forall x, keeps I (body x)) -> keeps I (for_each xs body).
Proof.
  intros Hb. induction xs as [|x xs IH]; simpl.
  - by intros w Hw.
  - apply keeps_bind; [apply Hb|by intros _].
Qed.

Lemma silent_ret {A} (a : A) : silent (mret a : Py A).
Proof. done. Qed.

Lemma silent_raise {A} e : silent (raise e : Py A).
Proof. done. Qed.

Lemma silent_exit {A} c : silent (sys_exit c : Py A).
Proof. done. Qed.

Lemma silent_import m : silent (import_ E m).
Proof. intros w. unfold import_. by destruct (importable E m). Qed.

Lemma silent_argv argv i : silent (sys_argv E argv i).
Proof. intros w. unfold sys_argv. by destruct (argv !! i). Qed.

Lemma silent_int x : silent (int E x).
Proof. intros w. unfold int. by destruct (py_int E x). Qed.

Lemma silent_lift_res {A} (r : Res A) : silent (lift_res r).
Proof. intros w. unfold lift_res. by destruct r. Qed.

Lemma silent_path_exists p : silent (path_exists p).
Proof. done. Qed.

Lemma silent_read_bytes p : silent (read_bytes E p).
Proof. intros w. unfold read_bytes. by destruct (stat _ _) as [[]|]. Qed.

(** What is left to show of a script: that printing, calling a library,
    and making or filling a directory [Wd] keep the invariant. *)
Variable Wd : Path -> Prop.
Hypothesis keeps_print : forall r, keeps I (print E r).
Hypothesis keeps_call : forall c, keeps I (call E c).
Hypothesis keeps_mkdir : forall d, Wd d -> keeps I (mkdir E d).
Hypothesis keeps_write : forall d f data,
  Wd d -> keeps I (write_bytes E (d </> f) data).

Ltac keeps_step :=
  cbv beta zeta;
  lazymatch goal with
  | |- keeps _ (mbind _ _) => apply keeps_bind; [|intros ?]
  | |- keeps _ (try_except _ _ _) => apply keeps_try; [|intros ?]
  | |- keeps _ (if _ then _ else _) => apply keeps_if
  | |- keeps _ (for_each _ _) => apply keeps_for_each; intros ?
  | |- keeps _ (print _ _) => apply keeps_print
  | |- keeps _ (call _ _) => apply keeps_call
  | |- keeps _ (mret _) => apply keeps_silent, silent_ret
  | |- keeps _ (raise _) => apply keeps_silent, silent_raise
  | |- keeps _ (sys_exit _) => apply keeps_silent, silent_exit
  | |- keeps _ (import_ _ _) => apply keeps_silent, silent_import
  | |- keeps _ (sys_argv _ _ _) => apply keeps_silent, silent_argv
  | |- keeps _ (int _ _) => apply keeps_silent, silent_int
  | |- keeps _ (lift_res _) => apply keeps_silent, silent_lift_res
  | |- keeps _ (path_exists _) => apply keeps_silent, silent_path_exists
  | |- keeps _ (read_bytes _ _) => apply keeps_silent, silent_read_bytes
  end.

Lemma copy_sidecars_keeps files src dst :
  Wd dst -> keeps I (copy_sidecars E files src dst).
Proof.
  intros Hd. unfold copy_sidecars. repeat keeps_step. by apply keeps_write.
Qed.

Lemma import_guard_keeps mods msg : keeps I (import_guard E mods msg).
Proof. unfold import_guard. repeat keeps_step. Qed.

Lemma stage_boundary_keeps body :
  keeps I body -> keeps I (stage_boundary E body).
Proof. intros Hb. unfold stage_boundary. apply keeps_try; [done|]. intros e. repeat keeps_step. Qed.


Lemma script_keeps s argv :
  (forall d, Wd d) -> keeps I (script E s argv).
Proof.
  intros Hall.
  destruct s; simpl;
    unfold download, convert, optimize, quantize, verify, verify_test_text,
           download_body, convert_body, optimize_body, quantize_body,
           verify_body;
    repeat first
      [ apply import_guard_keeps
      | apply stage_boundary_keeps
      | apply copy_sidecars_keeps; apply Hall
      | apply keeps_mkdir; apply Hall
      | keeps_step ].
Qed.

End Keeping.

(** ** Delivery of the records (C9) *)

Lemma prompt_app t1 t2 :
  prompt t1 = true -> prompt t2 = true -> prompt (t1 ++ t2) = true.
Proof.
  intros H1 H2. remember (length t1) as n eqn:Hn.
  revert t1 Hn H1. induction (lt_wf n) as [n _ IH]. intros t1 -> H1.
  destruct t1 as [|[r|r|c] t1]; simpl in *; try done.
  - destruct t1 as [|[r'|r'|c'] t1]; simpl in *; try done.
    apply andb_true_iff in H1 as [Hr H1]. rewrite Hr. simpl.
    eapply IH; [|done|done]. simpl. lia.
  - eapply IH; [|done|done]. simpl. lia.
Qed.

Section Delivery.

Variable E : Env.

Lemma buffer_ok_print r : keeps buffer_ok (print E r).
Proof.
  intros w Hw. unfold buffer_ok, print in *.
  destruct (spills E (w_pending w ++ [r])); simpl.
  - rewrite delivered_app, emitted_app. simpl.
    rewrite delivered_deliver, emitted_deliver, app_nil_r.
    by rewrite app_assoc, Hw.
  - rewrite delivered_app, emitted_app. simpl.
    by rewrite app_nil_r, app_assoc, Hw.
Qed.

Lemma buffer_ok_call c : keeps buffer_ok (call E c).
Proof.
  intros w Hw. unfold buffer_ok, call in *.
  destruct (lib E c (w_fs w)) as [[v|e] fs']; simpl;
    rewrite delivered_app, emitted_app; simpl; by rewrite !app_nil_r.
Qed.

Lemma buffer_ok_lift_fs r : keeps buffer_ok (lift_fs E r).
Proof. intros w Hw. unfold buffer_ok, lift_fs in *. by destruct r.1 as [[]|]. Qed.

Lemma buffer_ok_script s argv : keeps buffer_ok (script E s argv).
Proof.
  apply (script_keeps E buffer_ok (fun _ => True)); try done.
  - apply buffer_ok_print.
  - apply buffer_ok_call.
  - intros d _ w. apply buffer_ok_lift_fs.
  - intros d f data _ w. apply buffer_ok_lift_fs.
Qed.

Hypothesis line_buffered : forall pending, spills E pending = true.

Lemma written_through_print r : keeps written_through (print E r).
Proof.
  intros w [Hp Ht]. unfold written_through, print.
  rewrite line_buffered, Hp. simpl. split; [done|].
  apply prompt_app; [done|]. simpl. by rewrite bool_decide_eq_true_2.
Qed.

Lemma written_through_call c : keeps written_through (call E c).
Proof.
  intros w [Hp Ht]. unfold written_through, call.
  destruct (lib E c (w_fs w)) as [[v|e] fs']; simpl;
    (split; [done|]); by apply prompt_app.
Qed.

Lemma written_through_lift_fs r : keeps written_through (lift_fs E r).
Proof. intros w Hw. unfold written_through, lift_fs in *. by destruct r.1 as [[]|]. Qed.

Lemma written_through_script s argv : keeps written_through (script E s argv).
Proof.
  apply (script_keeps E written_through (fun _ => True)); try done.
  - apply written_through_print.
  - apply written_through_call.
  - intros d _ w. apply written_through_lift_fs.
  - intros d f data _ w. apply written_through_lift_fs.
Qed.

End Delivery.

(** C9, as the code has it: the records are printed one per line on
    standard output, in order, and none is taken back; by the time the
    process has ended the reader of the stream has received exactly the
    records printed, in the order they were printed.  The scripts never
    flush: a record is delivered as soon as it is printed, before the next
    library call starts, when the stream writes every line through (a
    terminal, or an unbuffered interpreter). *)
Theorem records_delivered_in_order E s argv fs0 :
  let f := run E s argv fs0 in
  delivered (final_trace f) = emitted (final_trace f) /\
  ((forall pending, spills E pending = true) -> prompt (final_trace f) = true).
Proof.
  intros f. subst f. unfold run, finish. simpl. split.
  - rewrite delivered_app, emitted_app, delivered_deliver, emitted_deliver, app_nil_r.
    by apply (buffer_ok_script E s argv (initial fs0)).
  - intros Hl.
    destruct (written_through_script E Hl s argv (initial fs0)) as [Hp Ht]; [done|].
    rewrite Hp. simpl. by rewrite app_nil_r.
Qed.

Lemma records_delivered_in_order_witness :
  (forall pending, spills Sample.env pending = true) /\
  let f := run Sample.env Download ["download.py"; "example/mini-model"; "/tmp/c"] ∅ in
  delivered (final_trace f) = emitted (final_trace f) /\
  prompt (final_trace f) = true.
Proof.
  split; [reflexivity|].
  destruct (records_delivered_in_order Sample.env Download
              ["download.py"; "example/mini-model"; "/tmp/c"] ∅) as [Hd Hp].
  split; [exact Hd|]. apply Hp. reflexivity.
Defined.

(** C9 as stated fails: with standard output a pipe, the first record is
    still in the buffer when the first library call starts; the records are
    delivered when the process ends. *)
Lemma piped_records_wait_in_the_buffer :
  let f := run Sample.env_piped Download
             ["download.py"; "example/mini-model"; "/tmp/c"] ∅ in
  take 2 (final_trace f) =
    [EvPrint (status_record "downloading_model");
     EvCall (AutoModel_from_pretrained "example/mini-model")] /\
  prompt (final_trace f) = false /\
  delivered (final_trace f) = emitted (final_trace f).
Proof. repeat split; reflexivity. Qed.

(** ** The input directory (C8) *)




Section Frame.

Variable E : Env.
Variable fs0 : FS.
Variable src : Path.





End Frame.




(** The same without any help from the library: with the output directory
    inside the input directory, the copy loop itself writes below the input
    directory. *)
Example quantize_below_its_input_directory :
  let fs0 := Sample.disk [Sample.dir "/m"; Sample.file "/m/model.onnx" "optimized";
                          Sample.file "/m/vocab.txt" "[PAD]"] in
  let f := run Sample.env Quantize ["quantize.py"; "/m"; "/m/q"] fs0 in
  exit_status f = 0%Z /\
  fs0 !! PurePath.of_string "/m/q/vocab.txt" = None /\
  final_fs f !! PurePath.of_string "/m/q/vocab.txt" = Some (File "[PAD]").
Proof. repeat split; reflexivity. Qed.

(** ** The manifest across the stages (C6) *)








(** * Further properties of the scripts *)

(** ** The protocol on any input *)

(** Whatever the arguments and the environment, the records of a run are
    an initial segment of the stage's progress sequence followed by nothing
    (an exception outside the [try] block, status 1), by one error record
    (status 1), or, after the whole sequence only, by the success record
    (status 0). *)
Theorem every_run_follows_protocol E s argv fs0 :
  let f := run E s argv fs0 in
  exists k tail,
    emitted (final_trace f) = map status_record (take k (progress_of s)) ++ tail /\
    ((tail = [] /\ k = 0%nat /\ exit_status f = 1%Z) \/
     (exists msg, tail = [error_record msg] /\ exit_status f = 1%Z) \/
     (exists final, tail = [final] /\ success_record s argv final /\
                    k = length (progress_of s) /\ exit_status f = 0%Z)).
Proof.
  intros f. subst f.
  change (emitted (final_trace (run E s argv fs0)))
    with (o_out (observed (run E s argv fs0))).
  destruct (run_cases E s argv fs0) as
    [_ Hx Ho|_ _ Hx Ho|body e w' k _ _ _ Hout Hx Ho|body w' final _ _ _ Hfin Hout Hx Ho];
    rewrite Ho.
  - exists 0%nat, []. split; [done|]. by left.
  - exists 0%nat, [error_record (guard_message s)]. split; [done|].
    right. left. by eexists.
  - exists k, [error_record (exn_text e)]. cbn [o_out with_out]. rewrite Hout.
    split; [done|]. right. left. by eexists.
  - exists (length (progress_of s)), [final]. rewrite Hout, firstn_all.
    split; [done|]. right. right. by eexists.
Qed.

(** ** The guard comes first *)

Lemma guard_refuses_witness :
  forallb (importable Sample.env_numpy_only) (unguarded_modules Verify) = true /\
  forallb (importable Sample.env_numpy_only) (guarded_modules Verify) = false /\
  let f := run Sample.env_numpy_only Verify ["verify.py"] ∅ in
  emitted (final_trace f) = [error_record (guard_message Verify)] /\
  exit_status f = 1%Z /\
  final_fs f = ∅ /\
  calls (final_trace f) = [].
Proof.
  split; [reflexivity|]. split; [reflexivity|].
  apply (guard_refuses Sample.env_numpy_only Verify ["verify.py"] ∅); reflexivity.
Defined.

(** ** Arguments that are missing or malformed *)

Lemma bad_args_no_body E s argv :
  args_ok E s argv = false -> stage_body E s argv = None.
Proof.
  intros H. destruct s; simpl in *.
  1,2,4,5: apply bool_decide_eq_false in H;
    destruct (argv !! 1%nat) as [a1|] eqn:H1; [|done];
    destruct (argv !! 2%nat) as [a2|] eqn:H2; [|done];
    apply lookup_lt_Some in H2; lia.
  destruct (argv !! 1%nat) as [a1|]; [|done].
  destruct (argv !! 2%nat) as [a2|]; [|done]. simpl.
  destruct (argv !! 3%nat) as [a3|]; [|done]. simpl.
  destruct (py_int E a3) as [z3|]; simpl.
  - destruct (argv !! 4%nat) as [a4|]; [|done]. simpl.
    destruct (py_int E a4) as [z4|]; [|done]. by simpl in H.
  - done.
Qed.

(** When the imports succeed but a positional argument is missing (or, for
    Optimize, the head count or the hidden size is not an integer), the
    script ends on the exception before its [try] block: it prints no
    record, calls no library, leaves the filesystem alone and exits with
    status 1. *)
Theorem bad_arguments_print_nothing E s argv fs0 :
  imports_ok E s = true ->
  args_ok E s argv = false ->
  let f := run E s argv fs0 in
  emitted (final_trace f) = [] /\
  calls (final_trace f) = [] /\
  final_fs f = fs0 /\
  exit_status f = 1%Z.
Proof.
  intros Hi Ha f. subst f.
  change (emitted (final_trace (run E s argv fs0)))
    with (o_out (observed (run E s argv fs0))).
  change (final_fs (run E s argv fs0))
    with (o_fs (observed (run E s argv fs0))).
  change (calls (final_trace (run E s argv fs0)))
    with (o_calls (observed (run E s argv fs0))).
  pose proof (bad_args_no_body E s argv Ha) as Hb.
  unfold imports_ok in Hi. apply andb_true_iff in Hi as [Hu Hg].
  destruct (run_cases E s argv fs0) as
    [_ Hx Ho|_ Hg' _ _|? ? ? ? _ Hb' _ _ _ _|? ? ? _ Hb' _ _ _ _ _];
    [|congruence..].
  by rewrite Ho, Hx.
Qed.

Lemma bad_arguments_print_nothing_witness :
  let argv := ["optimize.py"; "/e/model.onnx"; "/o/model.onnx"; "twelve"; "384"] in
  imports_ok Sample.env Optimize = true /\
  args_ok Sample.env Optimize argv = false /\
  let f := run Sample.env Optimize argv ∅ in
  emitted (final_trace f) = [] /\
  calls (final_trace f) = [] /\
  final_fs f = ∅ /\
  exit_status f = 1%Z.
Proof.
  intros argv. split; [reflexivity|]. split; [reflexivity|].
  apply (bad_arguments_print_nothing Sample.env Optimize argv ∅); reflexivity.
Defined.

(** ** The message of Quantize for a missing model *)

(** With its libraries installed and no [model.onnx] in the input
    directory, Quantize prints exactly two records: the first progress
    record, and the error record whose text names the path it looked for,
    as pathlib spells it. *)
Theorem quantize_names_the_missing_model E a0 model_dir output_dir rest fs0 :
  imports_ok E Quantize = true ->
  fs0 !! (PurePath.of_string model_dir </> "model.onnx") = None ->
  let f := run E Quantize (a0 :: model_dir :: output_dir :: rest) fs0 in
  emitted (final_trace f) =
    [status_record "loading_model";
     error_record ("Model not found: " +:+
                   PurePath.to_string (PurePath.of_string model_dir </> "model.onnx"))] /\
  exit_status f = 1%Z.
Proof.
  intros Hi Hm f.
  change (emitted (final_trace f)) with (o_out (observed f)).
  unfold imports_ok in Hi. apply andb_true_iff in Hi as [Hu Hg].
  subst f. apply run_wp. apply wp_script; try congruence.
  - done.
  - intros _ _ body Hb. simpl in Hb. injection Hb as <-.
    apply wp_stage_boundary. unfold quantize_body.
    wp_print_step. wp_seq. apply wp_path_exists. wp_seq.
    unfold exists_. rewrite stat_child.
    rewrite (obs_fs _ _ Hw). cbn [o_fs with_out obs initial w_fs].
    rewrite Hm. rewrite bool_decide_eq_false_2 by (by intros [? ?]).
    apply wp_raise. intros w1 Hw1.
    rewrite observed_finish. cbn [snd]. by rewrite Hw1, Hw.
Qed.

Lemma quantize_names_the_missing_model_witness :
  imports_ok Sample.env Quantize = true /\
  (∅ : FS) !! (PurePath.of_string "/tmp/missing_dir/" </> "model.onnx") = None /\
  let f := run Sample.env Quantize ["quantize.py"; "/tmp/missing_dir/"; "/tmp/q"] ∅ in
  emitted (final_trace f) =
    [status_record "loading_model";
     error_record ("Model not found: " +:+
                   PurePath.to_string
                     (PurePath.of_string "/tmp/missing_dir/" </> "model.onnx"))] /\
  exit_status f = 1%Z.
Proof.
  split; [reflexivity|]. split; [reflexivity|].
  apply (quantize_names_the_missing_model Sample.env "quantize.py"
           "/tmp/missing_dir/" "/tmp/q" [] ∅); reflexivity.
Defined.

(** ** Parsing what was printed *)

Lemma split_slash_no_slash s : Forall no_slash (PurePath.split_slash s).
Proof.
  induction s as [|c s IH]; simpl; [by repeat constructor|].
  destruct (decide (c = PurePath.slash)); [by constructor|].
  destruct (PurePath.split_slash s) as [|x xs]; [by repeat constructor|].
  inversion IH; subst. by constructor.
Qed.

Lemma split_slash_single x : no_slash x -> PurePath.split_slash x = [x].
Proof.
  induction x as [|c x IH]; simpl; [done|]. intros [Hc Hx].
  destruct (decide (c = PurePath.slash)); [done|]. by rewrite IH.
Qed.

Lemma split_slash_app x t :
  no_slash x ->
  PurePath.split_slash (x +:+ String PurePath.slash t) = x :: PurePath.split_slash t.
Proof.
  induction x as [|c x IH]; simpl.
  - intros _. by destruct (decide (PurePath.slash = PurePath.slash)).
  - intros [Hc Hx]. destruct (decide (c = PurePath.slash)); [done|].
    by rewrite IH.
Qed.

Lemma split_slash_slash t :
  PurePath.split_slash (String "/" t) = "" :: PurePath.split_slash t.
Proof. done. Qed.

Lemma split_slash_join l :
  l <> [] -> Forall no_slash l ->
  PurePath.split_slash (PurePath.join_slash l) = l.
Proof.
  induction l as [|x l IH]; [done|]. intros _ Hall.
  inversion Hall as [|? ? Hx Hl]; subst.
  destruct l as [|y l]; [by apply split_slash_single|].
  change (PurePath.join_slash (x :: y :: l))
    with (x +:+ String PurePath.slash (PurePath.join_slash (y :: l))).
  rewrite split_slash_app by done. by rewrite IH.
Qed.

Lemma component_head x :
  component x -> exists c x', x = String c x' /\ c <> PurePath.slash.
Proof.
  intros [Hk Hn]. destruct x as [|c x']; [done|]. destruct Hn. eauto.
Qed.

Lemma join_slash_head c x' xs :
  exists rest, PurePath.join_slash (String c x' :: xs) = String c rest.
Proof. destruct xs; simpl; eauto. Qed.

Lemma parse_root_keeps root c rest :
  root = "" \/ root = "/" \/ root = "//" ->
  c <> PurePath.slash ->
  PurePath.parse_root (root +:+ String c rest) = root.
Proof.
  intros [->|[->| ->]] Hc; simpl.
  - destruct rest as [|c2 [|c3 r]]; by destruct (decide (c = PurePath.slash)).
  - destruct rest; simpl; by destruct (decide (c = PurePath.slash)).
  - by destruct (decide (c = PurePath.slash)).
Qed.

Lemma filter_components l :
  Forall component l -> List.filter PurePath.keep_part l = l.
Proof.
  induction 1 as [|x l [Hk _] _ IH]; simpl; [done|]. by rewrite Hk, IH.
Qed.

Lemma of_string_parsed s : parsed (PurePath.of_string s).
Proof.
  split.
  - simpl. unfold PurePath.parse_root.
    destruct s as [|c1 [|c2 [|c3 r]]]; repeat case_decide; auto.
  - simpl. apply Forall_forall. intros x Hx.
    apply list_elem_of_In, filter_In in Hx as [Hin Hk]. split; [done|].
    pose proof (split_slash_no_slash s) as Hall.
    rewrite Forall_forall in Hall. by apply Hall, list_elem_of_In.
Qed.

Lemma of_to_string p :
  parsed p -> PurePath.of_string (PurePath.to_string p) = p.
Proof.
  destruct p as [root parts]. intros [Hroot Hparts]. simpl in *.
  unfold PurePath.to_string. simpl.
  destruct parts as [|x xs].
  - by destruct Hroot as [->|[->| ->]].
  - inversion Hparts as [|? ? Hx Hxs]; subst.
    destruct (component_head x Hx) as (c & x' & -> & Hc).
    destruct (join_slash_head c x' xs) as [rest Hrest].
    assert (Hsplit : List.filter PurePath.keep_part
                       (PurePath.split_slash (root +:+ PurePath.join_slash (String c x' :: xs)))
                     = String c x' :: xs).
    { assert (Hj : PurePath.split_slash (PurePath.join_slash (String c x' :: xs))
                   = String c x' :: xs).
      { apply split_slash_join; [done|].
        eapply Forall_impl; [exact Hparts|]. by intros ? [_ ?]. }
      destruct Hroot as [->|[->| ->]].
      - change ("" +:+ ?t) with t. rewrite Hj.
        by apply (filter_components (String c x' :: xs)).
      - change ("/" +:+ ?t) with (String "/" t).
        rewrite split_slash_slash, Hj.
        by apply (filter_components (String c x' :: xs)).
      - change ("//" +:+ ?t) with (String "/" (String "/" t)).
        rewrite !split_slash_slash, Hj.
        by apply (filter_components (String c x' :: xs)). }
    unfold PurePath.of_string. rewrite Hsplit. f_equal.
    rewrite Hrest. by apply parse_root_keeps.
Qed.

(** What [str] prints for a parsed path parses back to the same path: the
    directory a success record reports is the directory the stage worked
    on, however the argument was spelt. *)
Theorem printed_path_parses_back s :
  PurePath.of_string (PurePath.to_string (PurePath.of_string s)) = PurePath.of_string s.
Proof. apply of_to_string, of_string_parsed. Qed.

(** ** From one stage to the next *)


Lemma parent_child d name : PurePath.parent (d </> name) = d.
Proof.
  destruct d as [r p]. unfold PurePath.parent, PurePath.child. simpl.
  by rewrite removelast_last.
Qed.



Example optimize_copies_from_the_export :
  let f := run Sample.env Optimize
             ["optimize.py"; "/tmp/export/model.onnx"; "/tmp/opt/model.onnx"; "12"; "384"]
             (Sample.disk [Sample.dir "/tmp"; Sample.dir "/tmp/export";
                           Sample.file "/tmp/export/model.onnx" "onnx";
                           Sample.file "/tmp/export/vocab.txt" "[PAD]"]) in
  exit_status f = 0%Z /\
  final_fs f !! PurePath.of_string "/tmp/opt/vocab.txt" = Some (File "[PAD]") /\
  final_fs f !! PurePath.of_string "/tmp/opt/model.onnx" = Some (File "optimized").
Proof. repeat split; reflexivity. Qed.

(** ** What the scripts themselves do to the filesystem *)

Section Adding.

Variable E : Env.
Variable fs0 : FS.
Variable out : option Path.





End Adding.



Example dry_quantize_adds_directories_and_sidecars :
  let f := run Sample.env_dry Quantize ["quantize.py"; "/opt"; "/runs/q"]
             (Sample.disk [Sample.dir "/opt";
                           Sample.file "/opt/model.onnx" "optimized";
                           Sample.file "/opt/vocab.txt" "[PAD]"]) in
  exit_status f = 0%Z /\
  final_fs f !! PurePath.of_string "/runs" = Some Dir /\
  final_fs f !! PurePath.of_string "/runs/q" = Some Dir /\
  final_fs f !! PurePath.of_string "/runs/q/vocab.txt" = Some (File "[PAD]") /\
  final_fs f !! PurePath.of_string "/opt/model.onnx" = Some (File "optimized").
Proof. repeat split; reflexivity. Qed.

(** ** What reaches the libraries *)

Ltac calls_done :=
  fold_obs; obs_chain; by rewrite <- ?app_assoc.

Lemma body_calls E s argv body w :
  stage_body E s argv = Some body ->
  wp body w (fun o w' =>
    o = Value tt ->
    exists cs, success_calls E s argv cs /\
               o_calls (obs w') = o_calls (obs w) ++ cs).
Proof.
  intros Hb.
  destruct s; simpl in Hb;
    destruct (argv !! 1%nat) as [a1|] eqn:H1; try done;
    destruct (argv !! 2%nat) as [a2|] eqn:H2; try done; simpl in Hb.
  - injection Hb as <-. unfold download_body.
    wp_print_step. wp_call_step; [|done].
    wp_print_step. wp_call_step; [|done].
    wp_mkdir_step; [|done].
    wp_print_step. wp_call_step; [|done].
    wp_print_step. wp_call_step; [|done].
    wp_beta. apply wp_print. intros w9 Hw9 _.
    eexists. split.
    + simpl. exists a1, a2, v, v0. rewrite H1, H2.
      split; [done|]. split; [done|].
      split; [by eexists _, _|]. split; [by eexists _, _|]. reflexivity.
    + calls_done.
  - injection Hb as <-. unfold convert_body.
    wp_mkdir_step; [|done].
    wp_print_step. wp_call_step; [|done].
    wp_beta. apply wp_print. intros w9 Hw9 _.
    eexists. split.
    + simpl. exists a1, a2. by rewrite H1, H2.
    + calls_done.
  - destruct (argv !! 3%nat) as [a3|] eqn:H3; [|done]. simpl in Hb.
    destruct (py_int E a3) as [z3|] eqn:Hz3; [|done]. simpl in Hb.
    destruct (argv !! 4%nat) as [a4|] eqn:H4; [|done]. simpl in Hb.
    destruct (py_int E a4) as [z4|] eqn:Hz4; [|done]. simpl in Hb.
    injection Hb as <-. unfold optimize_body.
    wp_print_step. wp_print_step.
    wp_call_step; [|done]. wp_call_step; [|done].
    wp_print_step. wp_mkdir_step; [|done].
    wp_call_step; [|done].
    wp_seq. eapply wp_mono; [apply copy_sidecars_frame|]. simpl.
    intros o w' (Hex & Hw' & _).
    destruct o as [[]|e|c]; [|done|by destruct (Hex c)].
    apply wp_print. intros w9 Hw9 _.
    eexists. split.
    + simpl. exists a1, a2, a3, a4, z3, z4, v, v0. rewrite H1, H2.
      repeat (split; [done|]).
      split; [by eexists _, _|]. split; [by eexists _, _|]. reflexivity.
    + calls_done.
  - injection Hb as <-. unfold quantize_body.
    wp_print_step. wp_seq. apply wp_path_exists. wp_seq.
    destruct (exists_ _ _); [apply wp_ret|by apply wp_raise].
    wp_mkdir_step; [|done].
    wp_print_step. wp_call_step; [|done].
    wp_seq. eapply wp_mono; [apply copy_sidecars_frame|]. simpl.
    intros o w' (Hex & Hw' & _).
    destruct o as [[]|e|c]; [|done|by destruct (Hex c)].
    apply wp_print. intros w9 Hw9 _.
    eexists. split.
    + simpl. exists a1, a2. by rewrite H1, H2.
    + calls_done.
  - injection Hb as <-. unfold verify_body.
    wp_print_step. wp_call_step; [|done].
    wp_print_step. wp_call_step; [|done].
    wp_print_step. wp_call_step; [|done].
    wp_print_step. wp_call_step; [|done].
    wp_seq. apply wp_lift_res; [intros t1 Ht1|done].
    wp_seq. apply wp_lift_res; [intros shape Hsh|done].
    wp_seq. apply wp_lift_res; [intros t2 Ht2|done].
    wp_seq. apply wp_lift_res; [intros mean Hmean|done].
    wp_seq. apply wp_lift_res; [intros t3 Ht3|done].
    wp_seq. apply wp_lift_res; [intros std Hstd|done].
    wp_beta. apply wp_print. intros w9 Hw9 _.
    eexists. split.
    + simpl. exists a1, a2, v, v0, v1. rewrite H1, H2.
      split; [done|]. split; [done|].
      split; [by eexists _, _|]. split; [by eexists _, _|].
      split; [by eexists _, _|]. reflexivity.
    + calls_done.
Qed.

(** A run that exits with status zero has called its libraries in the
    fixed order of its stage, each call once, with the command-line
    arguments unchanged (the head count and hidden size of Optimize as
    [int] reads them), each object handed to the call after the one that
    returned it, and nothing else. *)
Theorem successful_run_calls E s argv fs0 :
  exit_status (run E s argv fs0) = 0%Z ->
  success_calls E s argv (calls (final_trace (run E s argv fs0))).
Proof.
  intros Hx.
  change (calls (final_trace (run E s argv fs0)))
    with (o_calls (observed (run E s argv fs0))).
  destruct (run_cases E s argv fs0) as
    [_ Hx' _|_ _ Hx' _|body e w' k _ _ _ _ Hx' _|body w' final _ Hb Hrun _ _ _ Ho];
    [congruence..|].
  pose proof (body_calls E s argv body (initial fs0) Hb) as Hc.
  unfold wp in Hc. rewrite Hrun in Hc. cbn [fst snd] in Hc.
  destruct (Hc eq_refl) as (cs & Hcs & Heq).
  rewrite Ho, Heq. exact Hcs.
Qed.

Lemma successful_run_calls_witness :
  let argv := ["optimize.py"; "/e/model.onnx"; "/o/model.onnx"; "12"; "384"] in
  let fs0 := Sample.disk [Sample.dir "/e"; Sample.file "/e/model.onnx" "onnx"] in
  exit_status (run Sample.env Optimize argv fs0) = 0%Z /\
  success_calls Sample.env Optimize argv
    (calls (final_trace (run Sample.env Optimize argv fs0))).
Proof.
  intros argv fs0. split; [reflexivity|].
  apply (successful_run_calls Sample.env Optimize argv fs0). reflexivity.
Defined.

Example optimize_passes_its_integers :
  calls (final_trace (run Sample.env Optimize
           ["optimize.py"; "/e/model.onnx"; "/o/model.onnx"; "12"; "384"]
           (Sample.disk [Sample.dir "/e"; Sample.file "/e/model.onnx" "onnx"]))) =
    [FusionOptions "bert";
     optimize_model "/e/model.onnx" "bert" 12 384 (Handle 3) true true;
     save_model_to_file (Handle 4) "/o/model.onnx"].
Proof. reflexivity. Qed.

(** ** Making the output directory *)

Lemma mkdir_parents_unfold root rparts fs :
  mkdir_parents root rparts fs =
    let self := PurePath.mk root (rev rparts) in
    match os_mkdir self fs with
    | (None, fs') => (None, fs')
    | (Some FileNotFoundError, fs') =>
        match rparts with
        | [] => (Some (FileNotFoundError, self), fs')
        | _ :: up =>
            match mkdir_parents root up fs' with
            | (Some e, fs1) => (Some e, fs1)
            | (None, fs1) => at_path self (mkdir_exist_ok self fs1)
            end
        end
    | (Some c, fs') =>
        if is_dir fs' self then (None, fs') else (Some (c, self), fs')
    end.
Proof. by destruct rparts. Qed.

Lemma self_of_rev (p : Path) :
  PurePath.mk (PurePath.root p) (rev (rev (PurePath.parts p))) = p.
Proof. destruct p. simpl. by rewrite rev_involutive. Qed.

Lemma world_eta w :
  {| w_fs := w_fs w; w_pending := w_pending w; w_trace := w_trace w |} = w.
Proof. by destruct w. Qed.

(** [exist_ok=True]: making a directory that is already there (in a
    filesystem where its parent is a directory too) raises nothing and
    leaves the world exactly as it was. *)
Theorem mkdir_existing_directory E p w :
  is_dir (w_fs w) p = true ->
  is_dir (w_fs w) (PurePath.parent p) = true ->
  mkdir E p w = (Value tt, w).
Proof.
  intros Hp Hparent. unfold mkdir.
  rewrite mkdir_parents_unfold. cbv zeta. rewrite self_of_rev.
  assert (Hos : os_mkdir p (w_fs w) = (Some FileExistsError, w_fs w)).
  { unfold os_mkdir. unfold is_dir in *.
    apply bool_decide_eq_true in Hp, Hparent.
    destruct (PurePath.parts p) eqn:Hparts; [done|].
    rewrite Hparent. unfold stat in Hp. rewrite Hparts in Hp. by rewrite Hp. }
  rewrite Hos, Hp. unfold lift_fs. simpl. by rewrite world_eta.
Qed.

Lemma mkdir_existing_directory_witness :
  let w := initial (Sample.disk [Sample.dir "/tmp"; Sample.dir "/tmp/q";
                                 Sample.file "/tmp/q/vocab.txt" "[PAD]"]) in
  let p := PurePath.of_string "/tmp/q" in
  is_dir (w_fs w) p = true /\
  is_dir (w_fs w) (PurePath.parent p) = true /\
  mkdir Sample.env p w = (Value tt, w).
Proof.
  intros w p. split; [reflexivity|]. split; [reflexivity|].
  apply (mkdir_existing_directory Sample.env p w); reflexivity.
Defined.

Lemma os_mkdir_ok p fs fs' :
  os_mkdir p fs = (None, fs') -> stat fs' p = Some Dir.
Proof.
  unfold os_mkdir, stat.
  destruct (PurePath.parts p) eqn:Hparts; [done|].
  destruct (match PurePath.parts (PurePath.parent p) with [] => _ | _ => _ end)
    as [[]|]; try done.
  destruct (fs !! p); [done|]. intros [= <-]. apply lookup_insert_eq.
Qed.

Lemma mkdir_exist_ok_ok p fs fs' :
  mkdir_exist_ok p fs = (None, fs') -> stat fs' p = Some Dir.
Proof.
  unfold mkdir_exist_ok.
  destruct (os_mkdir p fs) as [[c|] fs1] eqn:Hos.
  - destruct c; try done;
      (destruct (is_dir fs1 p) eqn:Hd; [|done]); intros [= <-];
      by apply bool_decide_eq_true in Hd.
  - intros [= <-]. by eapply os_mkdir_ok.
Qed.

Lemma mkdir_parents_ok root rparts fs fs' :
  mkdir_parents root rparts fs = (None, fs') ->
  stat fs' (PurePath.mk root (rev rparts)) = Some Dir.
Proof.
  rewrite mkdir_parents_unfold. cbv zeta.
  set (self := PurePath.mk root (rev rparts)).
  destruct (os_mkdir self fs) as [[c|] fs1] eqn:Hos.
  - assert (Hother : (if is_dir fs1 self then (None, fs1) else (Some (c, self), fs1))
                       = (None, fs') -> stat fs' self = Some Dir).
    { destruct (is_dir fs1 self) eqn:Hd; [|done]. intros [= <-].
      by apply bool_decide_eq_true in Hd. }
    destruct c; try exact Hother.
    destruct rparts as [|x up]; [done|].
    destruct (mkdir_parents root up fs1) as [[e|] fs2]; [done|].
    destruct (mkdir_exist_ok self fs2) as [[c2|] fs3] eqn:Hex; [done|].
    unfold at_path. simpl. intros [= <-]. by eapply mkdir_exist_ok_ok.
  - intros [= <-]. by eapply os_mkdir_ok.
Qed.

(** When [mkdir] returns, the path is a directory, and every entry that
    was in the filesystem is still there, unchanged. *)
Theorem mkdir_makes_directory E p w :
  (mkdir E p w).1 = Value tt ->
  is_dir (w_fs (mkdir E p w).2) p = true /\
  forall q, is_Some (w_fs w !! q) -> w_fs (mkdir E p w).2 !! q = w_fs w !! q.
Proof.
  unfold mkdir, lift_fs.
  destruct (mkdir_parents _ _ _) as [[[c q]|] fs'] eqn:Hm; simpl; [done|].
  intros _. split.
  - apply bool_decide_eq_true. rewrite <- (self_of_rev p).
    by eapply mkdir_parents_ok.
  - intros q [n Hq].
    destruct (mkdir_parents_spec _ _ _ _ _ Hm q) as [?|(_ & ? & _)]; congruence.
Qed.

Lemma mkdir_makes_directory_witness :
  let w := initial (Sample.disk [Sample.dir "/tmp"; Sample.file "/tmp/notes" "n"]) in
  let p := PurePath.of_string "/tmp/runs/q" in
  (mkdir Sample.env p w).1 = Value tt /\
  is_dir (w_fs (mkdir Sample.env p w).2) p = true /\
  (forall q, is_Some (w_fs w !! q) ->
             w_fs (mkdir Sample.env p w).2 !! q = w_fs w !! q).
Proof.
  intros w p. split; [reflexivity|].
  apply (mkdir_makes_directory Sample.env p w). reflexivity.
Defined.

(** ** Copying twice *)

Lemma child_ne_self d f : d <> d </> f.
Proof.
  destruct d as [r p]. unfold PurePath.child. simpl. intros [= H].
  apply (f_equal length) in H. rewrite length_app in H. simpl in H. lia.
Qed.

Lemma stat_same fs fs' d : fs' !! d = fs !! d -> stat fs' d = stat fs d.
Proof. unfold stat. intros H. by destruct (PurePath.parts d). Qed.

Lemma os_write_ok p data fs fs' :
  os_write p data fs = (None, fs') -> stat fs (PurePath.parent p) = Some Dir.
Proof.
  unfold os_write. destruct (PurePath.parts p); [done|].
  by destruct (stat fs (PurePath.parent p)) as [[]|].
Qed.

Lemma write_bytes_same E d f data w :
  stat (w_fs w) d = Some Dir ->
  w_fs w !! (d </> f) = Some (File data) ->
  write_bytes E (d </> f) data w = (Value tt, w).
Proof.
  intros Hd Hf. unfold write_bytes, os_write.
  rewrite parent_child, Hd, Hf.
  destruct (PurePath.parts (d </> f)) eqn:Hparts.
  { simpl in Hparts. by destruct (PurePath.parts d). }
  unfold lift_fs, at_path. simpl. rewrite insert_id by done. by rewrite world_eta.
Qed.

(** A loop whose every source file is already in place in the destination
    changes nothing. *)
Lemma copy_sidecars_noop E files src dst w :
  (forall f, f ∈ files ->
     match w_fs w !! (src </> f) with
     | Some n => exists data, n = File data /\
                   w_fs w !! (dst </> f) = Some (File data) /\
                   stat (w_fs w) dst = Some Dir
     | None => True
     end) ->
  copy_sidecars E files src dst w = (Value tt, w).
Proof.
  induction files as [|f files IH]; intros H; [done|].
  unfold copy_sidecars. cbn [for_each]. fold (copy_sidecars E files src dst).
  unfold mbind, Py_bind, bind, path_exists, exists_. rewrite stat_child.
  pose proof (H f ltac:(by left)) as Hf.
  assert (Hrest : copy_sidecars E files src dst w = (Value tt, w)).
  { apply IH. intros g Hg. apply H. by right. }
  destruct (w_fs w !! (src </> f)) as [n|] eqn:Hsrc.
  - destruct Hf as (data & -> & Hdst & Hdir).
    rewrite bool_decide_eq_true_2 by eauto.
    unfold read_bytes. rewrite stat_child, Hsrc.
    by rewrite (write_bytes_same E dst f data w Hdir Hdst).
  - rewrite bool_decide_eq_false_2 by (by intros [? ?]). done.
Qed.

(** After a loop that ended normally and found a file to copy, the
    destination is a directory. *)
Lemma copy_sidecars_dir E files src dst w :
  wp (copy_sidecars E files src dst) w (fun o w' =>
    o = Value tt ->
    forall f, f ∈ files -> is_Some (w_fs w !! (src </> f)) ->
              stat (w_fs w') dst = Some Dir).
Proof.
  revert w. induction files as [|f files IH]; intros w.
  - apply wp_ret. intros _ g Hg. by apply elem_of_nil in Hg.
  - unfold copy_sidecars. cbn [for_each]. fold (copy_sidecars E files src dst).
    wp_seq. wp_seq. apply wp_path_exists. wp_beta.
    unfold exists_. rewrite stat_child.
    destruct (w_fs w !! (src </> f)) as [n|] eqn:Hsrc.
    + rewrite bool_decide_eq_true_2 by eauto.
      wp_seq. apply wp_read_bytes; [intros data Hd|intros e _; by wp_beta].
      wp_beta. unfold wp at 1, write_bytes.
      destruct (os_write_spec (dst </> f) data (w_fs w)) as [Hw|[c Hw]].
      2: { rewrite Hw. unfold lift_fs, at_path. simpl. done. }
      pose proof (os_write_ok _ _ _ _ Hw) as Hdir. rewrite parent_child in Hdir.
      rewrite Hw. unfold lift_fs, at_path. cbn [fst snd].
      eapply wp_mono; [apply copy_sidecars_frame|]. simpl.
      intros o w' (_ & _ & Hfr) _ g _ _.
      rewrite <- Hdir. apply stat_same.
      rewrite Hfr by (intros h _; apply child_ne_self).
      apply lookup_insert_ne. apply not_eq_sym, child_ne_self.
    + rewrite bool_decide_eq_false_2 by (by intros [? ?]).
      apply wp_ret. eapply wp_mono; [apply IH|]. simpl.
      intros o w' Hdone Ho g Hg Hsome.
      apply elem_of_cons in Hg as [->|Hg].
      * rewrite Hsrc in Hsome. by destruct Hsome.
      * by eapply Hdone.
Qed.

(** Copying is idempotent: when the loop has ended normally, running it
    again on the result copies the same bytes onto themselves and leaves
    the world exactly as it is. *)
Theorem copy_sidecars_again_changes_nothing E files src dst w w1 :
  NoDup files ->
  copy_sidecars E files src dst w = (Value tt, w1) ->
  copy_sidecars E files src dst w1 = (Value tt, w1).
Proof.
  intros Hnd Hrun.
  pose proof (copy_sidecars_done E files src dst w Hnd) as Hdone.
  pose proof (copy_sidecars_dir E files src dst w) as Hdir.
  unfold wp in Hdone, Hdir. rewrite Hrun in Hdone, Hdir. cbn [fst snd] in *.
  specialize (Hdone eq_refl). specialize (Hdir eq_refl).
  apply copy_sidecars_noop. intros f Hf.
  destruct (Hdone f Hf) as [Hsrc Hdst]. rewrite Hsrc.
  destruct (w_fs w !! (src </> f)) as [n|] eqn:Hw; [|done].
  destruct Hdst as (data & -> & Hdst). exists data.
  split; [done|]. split; [done|]. eapply Hdir; [done|]. by rewrite Hw.
Qed.

Lemma copy_sidecars_again_changes_nothing_witness :
  let src := PurePath.of_string "/opt" in
  let dst := PurePath.of_string "/q" in
  let w := initial (Sample.disk [Sample.dir "/opt"; Sample.dir "/q";
                                 Sample.file "/opt/vocab.txt" "[PAD]";
                                 Sample.file "/opt/config.json" "{}";
                                 Sample.file "/q/config.json" "stale"]) in
  let w1 := (copy_sidecars Sample.env quantize_manifest src dst w).2 in
  NoDup quantize_manifest /\
  copy_sidecars Sample.env quantize_manifest src dst w = (Value tt, w1) /\
  copy_sidecars Sample.env quantize_manifest src dst w1 = (Value tt, w1).
Proof.
  intros src dst w w1.
  assert (Hnd : NoDup quantize_manifest) by apply (manifest_NoDup Quantize).
  assert (Hrun : copy_sidecars Sample.env quantize_manifest src dst w = (Value tt, w1))
    by reflexivity.
  split; [exact Hnd|]. split; [exact Hrun|].
  exact (copy_sidecars_again_changes_nothing Sample.env quantize_manifest
           src dst w w1 Hnd Hrun).
Defined.

(** ** Where the output is *)

Lemma kept_by_call E d c fs r fs' :
  keeps_directory E d c -> lib E c fs = (r, fs') ->
  stat fs d = Some Dir -> stat fs' d = Some Dir.
Proof. intros Hk Hl. by apply (Hk fs r fs'). Qed.

Ltac was_called :=
  fold_obs; obs_chain; rewrite ?elem_of_app, ?list_elem_of_singleton; auto 10.

(** A body that ends normally leaves the directory it made in place, as
    long as no library call takes it away. *)
Lemma body_makes_directory E s argv body w :
  stage_body E s argv = Some body ->
  wp body w (fun o w' =>
    o = Value tt ->
    forall d, stage_out s argv = Some d ->
      (forall c, c ∈ o_calls (obs w') -> keeps_directory E d c) ->
      stat (o_fs (obs w')) d = Some Dir).
Proof.
  intros Hb.
  destruct s; simpl in Hb;
    destruct (argv !! 1%nat) as [a1|] eqn:H1; try done;
    destruct (argv !! 2%nat) as [a2|] eqn:H2; try done; simpl in Hb.
  - injection Hb as <-. unfold download_body.
    wp_print_step. wp_call_step; [|done].
    wp_print_step. wp_call_step; [|done].
    wp_mkdir_step; [|done].
    wp_print_step. wp_call_step; [|done].
    wp_print_step. wp_call_step; [|done].
    wp_beta. apply wp_print. intros w9 Hw9 _ d Hd Hk.
    simpl in Hd. rewrite H2 in Hd. injection Hd as <-.
    apply mkdir_parents_ok in Hmk. rewrite self_of_rev in Hmk.
    obs_chain.
    eapply kept_by_call; [|exact Hlib2|]; [apply Hk; was_called|].
    fold_obs. obs_chain.
    eapply kept_by_call; [|exact Hlib1|]; [apply Hk; was_called|].
    fold_obs. obs_chain. exact Hmk.
  - injection Hb as <-. unfold convert_body.
    wp_mkdir_step; [|done].
    wp_print_step. wp_call_step; [|done].
    wp_beta. apply wp_print. intros w9 Hw9 _ d Hd Hk.
    simpl in Hd. rewrite H2 in Hd. injection Hd as <-.
    apply mkdir_parents_ok in Hmk. rewrite self_of_rev in Hmk.
    obs_chain.
    eapply kept_by_call; [|exact Hlib|]; [apply Hk; was_called|].
    fold_obs. obs_chain. exact Hmk.
  - destruct (argv !! 3%nat) as [a3|]; [|done]. simpl in Hb.
    destruct (py_int E a3) as [z3|]; [|done]. simpl in Hb.
    destruct (argv !! 4%nat) as [a4|]; [|done]. simpl in Hb.
    destruct (py_int E a4) as [z4|]; [|done]. simpl in Hb.
    injection Hb as <-. unfold optimize_body.
    wp_print_step. wp_print_step.
    wp_call_step; [|done]. wp_call_step; [|done].
    wp_print_step. wp_mkdir_step; [|done].
    wp_call_step; [|done].
    wp_seq. eapply wp_mono; [apply copy_sidecars_frame|]. simpl.
    intros o w' (Hex & Hw' & Hfr).
    destruct o as [[]|e|c]; [|done|by destruct (Hex c)].
    apply wp_print. intros w9 Hw9 _ d Hd Hk.
    simpl in Hd. rewrite H2 in Hd. injection Hd as <-.
    apply mkdir_parents_ok in Hmk. rewrite self_of_rev in Hmk.
    fold_obs. rewrite Hw9. cbn [o_fs with_out]. change (o_fs (obs w')) with (w_fs w').
    erewrite stat_same by (apply Hfr; intros f _; apply child_ne_self).
    fold_obs. obs_chain.
    eapply kept_by_call; [|exact Hlib1|]; [apply Hk; was_called|].
    fold_obs. obs_chain. exact Hmk.
  - injection Hb as <-. unfold quantize_body.
    wp_print_step. wp_seq. apply wp_path_exists. wp_seq.
    destruct (exists_ _ _); [apply wp_ret|by apply wp_raise].
    wp_mkdir_step; [|done].
    wp_print_step. wp_call_step; [|done].
    wp_seq. eapply wp_mono; [apply copy_sidecars_frame|]. simpl.
    intros o w' (Hex & Hw' & Hfr).
    destruct o as [[]|e|c]; [|done|by destruct (Hex c)].
    apply wp_print. intros w9 Hw9 _ d Hd Hk.
    simpl in Hd. rewrite H2 in Hd. injection Hd as <-.
    apply mkdir_parents_ok in Hmk. rewrite self_of_rev in Hmk.
    fold_obs. rewrite Hw9. cbn [o_fs with_out]. change (o_fs (obs w')) with (w_fs w').
    erewrite stat_same by (apply Hfr; intros f _; apply child_ne_self).
    fold_obs. obs_chain.
    eapply kept_by_call; [|exact Hlib|]; [apply Hk; was_called|].
    fold_obs. obs_chain. exact Hmk.
Qed.

(** The location a successful stage reports in its last record is, when
    the run has ended, a directory of the filesystem: the one the stage
    made with [mkdir] (for Optimize, the directory of the file it reports),
    whatever the spelling of the argument (a trailing slash, doubled
    slashes, dots), as long as none of the library calls of the run takes
    that directory away. *)
Theorem reported_location_is_the_output E s argv fs0 :
  s <> Verify ->
  let f := run E s argv fs0 in
  exit_status f = 0%Z ->
  (forall c output, c ∈ calls (final_trace f) -> argv !! 2%nat = Some output ->
                    keeps_directory E (located s output) c) ->
  exists final reported output,
    last (emitted (final_trace f)) = Some final /\
    get_key (report_key s) final = Some (JStr reported) /\
    argv !! 2%nat = Some output /\
    located s reported = located s output /\
    is_dir (final_fs f) (located s reported) = true.
Proof.
  intros Hs f Hx Hkeep. subst f.
  revert Hkeep.
  change (emitted (final_trace (run E s argv fs0)))
    with (o_out (observed (run E s argv fs0))).
  change (calls (final_trace (run E s argv fs0)))
    with (o_calls (observed (run E s argv fs0))).
  change (final_fs (run E s argv fs0))
    with (o_fs (observed (run E s argv fs0))).
  destruct (run_cases E s argv fs0) as
    [_ Hx' _|_ _ Hx' _|body e w' k _ _ _ _ Hx' _|body w' final _ Hb Hrun Hfin Hout _ Ho];
    [congruence..|].
  rewrite Ho, Hout, last_snoc. intros Hkeep.
  pose proof (body_makes_directory E s argv body (initial fs0) Hb) as Hdir.
  unfold wp in Hdir. rewrite Hrun in Hdir. cbn [fst snd] in Hdir.
  specialize (Hdir eq_refl).
  destruct s; [| | | |done]; destruct Hfin as (d & Hd & ->);
    eexists _, _, d; (split; [done|]); (split; [reflexivity|]);
    (split; [done|]);
    unfold located; rewrite ?(of_to_string _ (of_string_parsed _));
    (split; [done|]); apply bool_decide_eq_true;
    (apply Hdir; [by simpl; rewrite Hd|]);
    intros c Hc; exact (Hkeep c d Hc Hd).
Qed.

Lemma reported_location_is_the_output_witness :
  let argv := ["quantize.py"; "/opt/./"; "//q///out/"] in
  let fs0 := Sample.disk [Sample.dir "/opt"; Sample.file "/opt/model.onnx" "optimized"] in
  let f := run Sample.env Quantize argv fs0 in
  Quantize <> Verify /\
  exit_status f = 0%Z /\
  (forall c output, c ∈ calls (final_trace f) -> argv !! 2%nat = Some output ->
                    keeps_directory Sample.env (located Quantize output) c) /\
  exists final reported output,
    last (emitted (final_trace f)) = Some final /\
    get_key (report_key Quantize) final = Some (JStr reported) /\
    argv !! 2%nat = Some output /\
    located Quantize reported = located Quantize output /\
    is_dir (final_fs f) (located Quantize reported) = true.
Proof.
  intros argv fs0 f.
  assert (Hs : Quantize <> Verify) by discriminate.
  assert (Hx : exit_status f = 0%Z) by reflexivity.
  assert (Hkeep : forall c output, c ∈ calls (final_trace f) ->
                    argv !! 2%nat = Some output ->
                    keeps_directory Sample.env (located Quantize output) c).
  { intros c output Hc Hd. injection Hd as <-.
    assert (c = quantize_dynamic "/opt/model.onnx" "//q/out/model_quantized.onnx"
                  "QUInt8" true false [("DefaultTensorType", "FLOAT")]) as ->.
    { vm_compute in Hc. by apply list_elem_of_singleton in Hc. }
    intros fs r fs' Hl Hst. simpl in Hl.
    destruct (Sample.is_file fs _); injection Hl as <- <-; [|done].
    unfold stat in *. simpl in *. by rewrite lookup_insert_ne. }
  split; [exact Hs|]. split; [exact Hx|]. split; [exact Hkeep|].
  exact (reported_location_is_the_output Sample.env Quantize argv fs0 Hs Hx Hkeep).
Defined.
